(** * License verification of FlixPilot (src/lib/license.ts)

    A shallow embedding of the entitlement module: the resolution of the
    license server address, the reading of the license configuration, the
    cached verification, the activation, the feature gate and the status
    shown to the front end.

    The module is JavaScript: values are untyped at run time, exceptions are
    thrown and caught, and two module-level variables ([licenseCache],
    [lastVerifyTime]) carry the state.  The embedding keeps all three: a type
    of JavaScript values, a completion type with [Throw], and a small monad
    that threads the two variables and records the file-system and network
    operations a call performs.

    Each call is run against one [World]: the clock, the environment
    variable, what the file system shows for config.json and what the
    network answers.  A call is taken as one atomic step: what other calls
    do while this one is suspended at an [await] is not modelled. *)

From Stdlib Require Import ZArith List String Bool Lia.
Import ListNotations.
Open Scope string_scope.
Open Scope Z_scope.

Set Warnings "-register-all".

(** ** JavaScript values *)

(** The values [JSON.parse] builds, and [undefined] for what a property
    access finds absent.  Numbers are only ever tested for truthiness and
    compared with strings by the code, so an integer stands for them. *)
Inductive JsValue : Type :=
| JUndefined
| JNull
| JBool (b : bool)
| JNum (n : Z)
| JStr (s : string)
| JArr (items : list JsValue)
| JObj (fields : list (string * JsValue)).

(** An [Error] object, as far as the code looks at it: its [message]. *)
Record JsError : Type := mkError { errMessage : string }.

(** How an evaluation ends: with a value, or with a thrown error. *)
Inductive Completion (A : Type) : Type :=
| Normal (a : A)
| Throw (e : JsError).
Arguments Normal {A} a.
Arguments Throw {A} e.

(** [ToBoolean]. *)
Definition truthy (v : JsValue) : bool :=
  match v with
  | JUndefined | JNull => false
  | JBool b => b
  | JNum n => negb (n =? 0)
  | JStr s => negb (String.eqb s "")
  | JArr _ | JObj _ => true
  end.

(** [v === 'k'] for a string literal [k]. *)
Definition strictEqStr (v : JsValue) (k : string) : bool :=
  match v with
  | JStr s => String.eqb s k
  | _ => false
  end.

Fixpoint lookupField (k : string) (fields : list (string * JsValue)) : JsValue :=
  match fields with
  | [] => JUndefined
  | (k', v) :: rest => if String.eqb k k' then v else lookupField k rest
  end.

(** The [TypeError] of a property read on [null] or [undefined]. *)
Definition nullPropertyError (k : string) : JsError :=
  mkError ("Cannot read properties of null (reading '" ++ k ++ "')").

(** [v.k], for the property names this module reads (licenseServer, license,
    domain, licenseKey, valid, message, type, maxUsers, expiresAt,
    customerName, success): none of them lives on a prototype, so only an
    object's own fields answer. *)
Definition getProp (v : JsValue) (k : string) : Completion JsValue :=
  match v with
  | JUndefined | JNull => Throw (nullPropertyError k)
  | JObj fields => Normal (lookupField k fields)
  | JBool _ | JNum _ | JStr _ | JArr _ => Normal JUndefined
  end.

(** [v?.k]. *)
Definition optProp (v : JsValue) (k : string) : JsValue :=
  match v with
  | JObj fields => lookupField k fields
  | _ => JUndefined
  end.

(** ** The world a call runs in *)

(** What the file system shows for CONFIG_FILE. *)
Inductive FileRead : Type :=
| NoFile                         (* fs.existsSync is false *)
| ReadFails (e : JsError)        (* fs.readFileSync throws *)
| ParseFails (e : JsError)       (* JSON.parse throws *)
| Parsed (config : JsValue).     (* JSON.parse returns *)

(** What [response.json()] yields. *)
Inductive BodyRead : Type :=
| JsonRejects (e : JsError)
| BodyJson (data : JsValue).

(** What [fetch] yields: a rejection (transport error, timeout, bad URL) or
    a response with its [ok] flag and its body. *)
Inductive FetchOutcome : Type :=
| FetchRejects (e : JsError)
| FetchResponds (ok : bool) (body : BodyRead).

(** A POST request of this module: the URL is the template
    [`${licenseServer}${path}`], the body is [{licenseKey, domain}]. *)
Record Request : Type := mkRequest {
  reqServer : JsValue;
  reqPath : string;
  reqLicenseKey : JsValue;
  reqDomain : JsValue
}.

Record World : Type := mkWorld {
  now : Z;                               (* Date.now() *)
  envLicenseServer : option string;      (* process.env.LICENSE_SERVER *)
  configFile : FileRead;
  network : Request -> FetchOutcome
}.

(** ** Module state *)

Record LicenseInfo : Type := mkLicenseInfo {
  valid : JsValue;
  message : JsValue;
  type : JsValue;           (* [JUndefined] when absent, as for the rest *)
  maxUsers : JsValue;
  expiresAt : JsValue;
  customerName : JsValue
}.

Record LicenseConfig : Type := mkLicenseConfig {
  domain : JsValue;
  licenseKey : JsValue
}.

Record Store : Type := mkStore {
  licenseCache : option LicenseInfo;
  lastVerifyTime : Z
}.

(** The state the module is loaded with. *)
Definition initialStore : Store := mkStore None 0.

(** ** The monad of the module's functions *)

Inductive Event : Type :=
| EvExistsSync
| EvReadFileSync
| EvFetch (req : Request).

Definition M (A : Type) : Type :=
  World -> Store -> Completion A * Store * list Event.

Definition ret {A} (a : A) : M A := fun _ s => (Normal a, s, []).

Definition throw {A} (e : JsError) : M A := fun _ s => (Throw e, s, []).

Definition bind {A B} (m : M A) (k : A -> M B) : M B :=
  fun w s =>
    match m w s with
    | (Normal a, s1, t1) =>
        match k a w s1 with
        | (r, s2, t2) => (r, s2, (t1 ++ t2)%list)
        end
    | (Throw e, s1, t1) => (Throw e, s1, t1)
    end.

(** [try { body } catch (error) { handler }]. *)
Definition tryCatch {A} (body : M A) (handler : JsError -> M A) : M A :=
  fun w s =>
    match body w s with
    | (Normal a, s1, t1) => (Normal a, s1, t1)
    | (Throw e, s1, t1) =>
        match handler e w s1 with
        | (r, s2, t2) => (r, s2, (t1 ++ t2)%list)
        end
    end.

Declare Scope js_scope.
Delimit Scope js_scope with js.
Notation "x <- m ;; k" := (bind m (fun x => k))
  (at level 100, m at next level, right associativity) : js_scope.
Notation "m ;;; k" := (bind m (fun _ => k))
  (at level 100, right associativity) : js_scope.
Open Scope js_scope.

Definition liftC {A} (c : Completion A) : M A := fun _ s => (c, s, []).

Definition dateNow : M Z := fun w s => (Normal (now w), s, []).

(** [process.env.LICENSE_SERVER]: a string, or [undefined] when unset. *)
Definition readEnvLicenseServer : M JsValue :=
  fun w s =>
    (Normal (match envLicenseServer w with
             | Some v => JStr v
             | None => JUndefined
             end), s, []).

Definition getCache : M (option LicenseInfo) :=
  fun _ s => (Normal (licenseCache s), s, []).

Definition getLastVerifyTime : M Z :=
  fun _ s => (Normal (lastVerifyTime s), s, []).

Definition setCache (c : option LicenseInfo) : M unit :=
  fun _ s => (Normal tt, mkStore c (lastVerifyTime s), []).

Definition setLastVerifyTime (t : Z) : M unit :=
  fun _ s => (Normal tt, mkStore (licenseCache s) t, []).

(** [fs.existsSync(CONFIG_FILE)]. *)
Definition existsSync : M bool :=
  fun w s =>
    (Normal (match configFile w with NoFile => false | _ => true end),
     s, [EvExistsSync]).

(** [JSON.parse(fs.readFileSync(CONFIG_FILE, 'utf-8'))]. *)
Definition readConfigJson : M JsValue :=
  fun w s =>
    (match configFile w with
     | NoFile => Throw (mkError "ENOENT: no such file or directory")
     | ReadFails e => Throw e
     | ParseFails e => Throw e
     | Parsed config => Normal config
     end, s, [EvReadFileSync]).

(** [await fetch(url, {method: 'POST', headers, body, signal})]: the
    evaluation of the whole call, so a rejection also stands for what
    building the URL or the body may throw. *)
Definition fetch (req : Request) : M FetchOutcome :=
  fun w s => (Normal (network w req), s, [EvFetch req]).

(** ** license.ts *)

Definition BUILT_IN_LICENSE_SERVER : string := "https://license.flixpilot.ovh".

Definition VERIFY_INTERVAL : Z := 1000 * 60 * 60.

Definition getLicenseServer : M JsValue :=
  env <- readEnvLicenseServer ;;
  if truthy env then ret env else
  tryCatch
    (present <- existsSync ;;
     if present then
       config <- readConfigJson ;;
       server <- liftC (getProp config "licenseServer") ;;
       if truthy server then ret server
       else ret (JStr BUILT_IN_LICENSE_SERVER)
     else ret (JStr BUILT_IN_LICENSE_SERVER))
    (fun _ => ret (JStr BUILT_IN_LICENSE_SERVER)).

Definition getLicenseConfig : M (option LicenseConfig) :=
  tryCatch
    (present <- existsSync ;;
     if negb present then ret None else
     config <- readConfigJson ;;
     license <- liftC (getProp config "license") ;;
     if truthy (optProp license "domain") && truthy (optProp license "licenseKey")
     then
       license1 <- liftC (getProp config "license") ;;
       domain <- liftC (getProp license1 "domain") ;;
       license2 <- liftC (getProp config "license") ;;
       licenseKey <- liftC (getProp license2 "licenseKey") ;;
       ret (Some (mkLicenseConfig domain licenseKey))
     else ret None)
    (fun _ => ret None).

Definition notConfiguredMessage : string :=
  "未配置授权信息，请在设置中填写授权域名和授权码".

Definition serverErrorMessage : string := "授权服务器响应异常".

Definition verifyFailedPrefix : string := "授权验证失败: ".

(** The result of a verification that found no license configuration. *)
Definition notConfiguredResult : LicenseInfo :=
  mkLicenseInfo (JBool false) (JStr notConfiguredMessage)
                JUndefined JUndefined JUndefined JUndefined.

(** The result of a failed verification with nothing cached. *)
Definition verifyFailedResult (error : JsError) : LicenseInfo :=
  mkLicenseInfo (JBool false) (JStr (verifyFailedPrefix ++ errMessage error))
                JUndefined JUndefined JUndefined JUndefined.

Definition verifyRequest (licenseServer : JsValue) (c : LicenseConfig) : Request :=
  mkRequest licenseServer "/api/verify" (licenseKey c) (domain c).

(** [await response.json()]. *)
Definition responseJson (body : BodyRead) : M JsValue :=
  match body with
  | JsonRejects e => throw e
  | BodyJson data => ret data
  end.

(** The guard of the cache check:
    [!forceRefresh && licenseCache && (now - lastVerifyTime) < VERIFY_INTERVAL]. *)
Definition cacheHit (forceRefresh : bool) (cache : option LicenseInfo)
    (now last : Z) : option LicenseInfo :=
  if negb forceRefresh then
    match cache with
    | Some cached => if now - last <? VERIFY_INTERVAL then Some cached else None
    | None => None
    end
  else None.

Definition verifyLicense (forceRefresh : bool) : M LicenseInfo :=
  now <- dateNow ;;
  cache <- getCache ;;
  last <- getLastVerifyTime ;;
  match cacheHit forceRefresh cache now last with
  | Some cached => ret cached
  | None =>
      licenseConfig <- getLicenseConfig ;;
      match licenseConfig with
      | None =>
          let result := notConfiguredResult in
          setCache (Some result) ;;;
          setLastVerifyTime now ;;;
          ret result
      | Some licenseConfig =>
          licenseServer <- getLicenseServer ;;
          tryCatch
            (response <- fetch (verifyRequest licenseServer licenseConfig) ;;
             match response with
             | FetchRejects e => throw e
             | FetchResponds ok body =>
                 if negb ok then throw (mkError serverErrorMessage) else
                 data <- responseJson body ;;
                 valid <- liftC (getProp data "valid") ;;
                 message <- liftC (getProp data "message") ;;
                 license <- liftC (getProp data "license") ;;
                 let result :=
                   mkLicenseInfo valid message
                     (optProp license "type") (optProp license "maxUsers")
                     (optProp license "expiresAt") (optProp license "customerName") in
                 setCache (Some result) ;;;
                 setLastVerifyTime now ;;;
                 ret result
             end)
            (fun error =>
               cache <- getCache ;;
               match cache with
               | Some cached => ret cached
               | None =>
                   let result := verifyFailedResult error in
                   setCache (Some result) ;;;
                   setLastVerifyTime now ;;;
                   ret result
               end)
      end
  end.

Record ActivationOutcome : Type := mkActivationOutcome {
  success : JsValue;
  activationMessage : JsValue;
  license : option LicenseInfo
}.

Definition noServerMessage : string :=
  "未配置授权服务器地址，请在 config.json 或环境变量中配置 LICENSE_SERVER".

Definition licenseValidMessage : string := "授权有效".

Definition activateFailedPrefix : string := "激活失败: ".

Definition activateRequest (licenseServer : JsValue) (domain licenseKey : string)
    : Request :=
  mkRequest licenseServer "/api/activate" (JStr licenseKey) (JStr domain).

Definition activateLicense (domain licenseKey : string) : M ActivationOutcome :=
  licenseServer <- getLicenseServer ;;
  if negb (truthy licenseServer) then
    ret (mkActivationOutcome (JBool false) (JStr noServerMessage) None)
  else
  tryCatch
    (response <- fetch (activateRequest licenseServer domain licenseKey) ;;
     match response with
     | FetchRejects e => throw e
     | FetchResponds _ body =>
         data <- responseJson body ;;
         success <- liftC (getProp data "success") ;;
         (if truthy success then
            setCache None ;;;
            setLastVerifyTime 0
          else ret tt) ;;;
         message <- liftC (getProp data "message") ;;
         lic <- liftC (getProp data "license") ;;
         ret (mkActivationOutcome success message
                (if truthy success then
                   Some (mkLicenseInfo (JBool true) (JStr licenseValidMessage)
                           (optProp lic "type") (optProp lic "maxUsers")
                           (optProp lic "expiresAt") JUndefined)
                 else None))
     end)
    (fun error =>
       ret (mkActivationOutcome (JBool false)
              (JStr (activateFailedPrefix ++ errMessage error)) None)).

Record FeatureAccess : Type := mkFeatureAccess {
  allowed : bool;
  reason : JsValue          (* [JUndefined] when the field is absent *)
}.

Definition proFeatures : list string :=
  ["moviepilot"; "telegram"; "advanced-stats"; "multi-emby"].

(** [proFeatures.includes(feature)]. *)
Definition includes (l : list string) (x : string) : bool :=
  existsb (String.eqb x) l.

Definition requiresProMessage : string := "此功能需要 Pro 版授权".

Definition checkFeatureAccess (feature : string) : M FeatureAccess :=
  license <- verifyLicense false ;;
  if negb (truthy (valid license)) then
    ret (mkFeatureAccess false (message license))
  else if strictEqStr (type license) "lifetime"
          || strictEqStr (type license) "enterprise" then
    ret (mkFeatureAccess true JUndefined)
  else if includes proFeatures feature
          && negb (strictEqStr (type license) "pro") then
    ret (mkFeatureAccess false (JStr requiresProMessage))
  else ret (mkFeatureAccess true JUndefined).

Record LicenseStatus : Type := mkLicenseStatus {
  configured : bool;
  statusValid : JsValue;
  info : option LicenseInfo;         (* [None] for [null] *)
  config : option JsValue            (* the [domain] of [{domain}], or [null] *)
}.

Definition getLicenseStatus : M LicenseStatus :=
  config <- getLicenseConfig ;;
  match config with
  | None => ret (mkLicenseStatus false (JBool false) None None)
  | Some config =>
      license <- verifyLicense false ;;
      ret (mkLicenseStatus true (valid license) (Some license)
             (Some (domain config)))
  end.

Definition clearLicenseCache : M unit :=
  setCache None ;;;
  setLastVerifyTime 0.

(** ** Running calls, and reading a run *)

(** A sequence of calls of one operation, each in its own world. *)
Fixpoint runCalls {A} (m : M A) (ws : list World) (s : Store)
    : list (Completion A) * Store * list Event :=
  match ws with
  | [] => ([], s, [])
  | w :: rest =>
      match m w s with
      | (r, s1, t1) =>
          match runCalls m rest s1 with
          | (rs, s2, t2) => (r :: rs, s2, (t1 ++ t2)%list)
          end
      end
  end.

(** The requests a run sent to the network. *)
Fixpoint fetches (t : list Event) : list Request :=
  match t with
  | [] => []
  | EvFetch req :: rest => req :: fetches rest
  | _ :: rest => fetches rest
  end.

(** Whether a run consulted the file system for config.json. *)
Definition readsConfig (t : list Event) : bool :=
  existsb (fun e => match e with EvExistsSync => true | _ => false end) t.

(** What [getLicenseConfig] returns in a world, and what it does there. *)
Definition readLicenseConfig (w : World) : option LicenseConfig :=
  match getLicenseConfig w initialStore with
  | (Normal c, _, _) => c
  | (Throw _, _, _) => None
  end.

Definition configTrace (w : World) : list Event :=
  snd (getLicenseConfig w initialStore).

(** What [getLicenseServer] returns in a world, and what it does there. *)
Definition licenseServerOf (w : World) : JsValue :=
  match getLicenseServer w initialStore with
  | (Normal v, _, _) => v
  | (Throw _, _, _) => JUndefined
  end.

Definition serverTrace (w : World) : list Event :=
  snd (getLicenseServer w initialStore).

(** The error the [try] block of [verifyLicense] ends with when the exchange
    fails: a rejected fetch (transport error, timeout), a response that is
    not [ok], a body [response.json()] cannot parse, or a body that is
    [null], on which reading [data.valid] throws. *)
Definition exchangeError (o : FetchOutcome) : option JsError :=
  match o with
  | FetchRejects e => Some e
  | FetchResponds false _ => Some (mkError serverErrorMessage)
  | FetchResponds true (JsonRejects e) => Some e
  | FetchResponds true (BodyJson JNull)
  | FetchResponds true (BodyJson JUndefined) => Some (nullPropertyError "valid")
  | FetchResponds true (BodyJson _) => None
  end.

(** The same for [activateLicense], which does not look at [response.ok]. *)
Definition activationError (o : FetchOutcome) : option JsError :=
  match o with
  | FetchRejects e => Some e
  | FetchResponds _ (JsonRejects e) => Some e
  | FetchResponds _ (BodyJson JNull)
  | FetchResponds _ (BodyJson JUndefined) => Some (nullPropertyError "success")
  | FetchResponds _ (BodyJson _) => None
  end.

(** The [success] field of the body of an activation response. *)
Definition activationSuccess (o : FetchOutcome) : JsValue :=
  match o with
  | FetchResponds _ (BodyJson data) => optProp data "success"
  | _ => JUndefined
  end.

(** The request [verifyLicense] sends in a world where the configuration
    reads as [c], and what a refreshing call does there up to the answer. *)
Definition verifyRequestOf (w : World) (c : LicenseConfig) : Request :=
  verifyRequest (licenseServerOf w) c.

Definition verifyTrace (w : World) (c : LicenseConfig) : list Event :=
  (configTrace w ++ serverTrace w ++ [EvFetch (verifyRequestOf w c)])%list.

(** The result [verifyLicense] builds from a body that is not [null]. *)
Definition verifiedResult (data : JsValue) : LicenseInfo :=
  mkLicenseInfo (optProp data "valid") (optProp data "message")
    (optProp (optProp data "license") "type")
    (optProp (optProp data "license") "maxUsers")
    (optProp (optProp data "license") "expiresAt")
    (optProp (optProp data "license") "customerName").

(** The body of a response, when there is one. *)
Definition responseData (o : FetchOutcome) : JsValue :=
  match o with
  | FetchResponds _ (BodyJson data) => data
  | _ => JUndefined
  end.

(** The request [activateLicense] sends. *)
Definition activateRequestOf (w : World) (domain licenseKey : string) : Request :=
  activateRequest (licenseServerOf w) domain licenseKey.

Definition activateTrace (w : World) (domain licenseKey : string) : list Event :=
  (serverTrace w ++ [EvFetch (activateRequestOf w domain licenseKey)])%list.

(** The license [activateLicense] reports from a successful body. *)
Definition activatedLicense (data : JsValue) : LicenseInfo :=
  mkLicenseInfo (JBool true) (JStr licenseValidMessage)
    (optProp (optProp data "license") "type")
    (optProp (optProp data "license") "maxUsers")
    (optProp (optProp data "license") "expiresAt")
    JUndefined.

(** A world with another config.json. *)
Definition withConfigFile (w : World) (f : FileRead) : World :=
  mkWorld (now w) (envLicenseServer w) f (network w).

(** The license configuration is absent: no file, a file that cannot be read
    or parsed, or no (non-empty) [license.domain] or [license.licenseKey]. *)
Definition configAbsent (f : FileRead) : bool :=
  match f with
  | NoFile | ReadFails _ | ParseFails _ => true
  | Parsed c =>
      negb (truthy (optProp (optProp c "license") "domain")
            && truthy (optProp (optProp c "license") "licenseKey"))
  end.

(** ** Sample worlds and stores *)

Definition sampleConfig : JsValue :=
  JObj [("license", JObj [("domain", JStr "x.com"); ("licenseKey", JStr "K")])].

Definition sampleLicenseConfig : LicenseConfig :=
  mkLicenseConfig (JStr "x.com") (JStr "K").

Definition unreachable : Request -> FetchOutcome :=
  fun _ => FetchRejects (mkError "fetch failed").

Definition answers (data : JsValue) : Request -> FetchOutcome :=
  fun _ => FetchResponds true (BodyJson data).

Definition lifetimeInfo : LicenseInfo :=
  mkLicenseInfo (JBool true) (JStr "ok") (JStr "lifetime")
                JUndefined JUndefined JUndefined.

Definition tierInfo (tier : JsValue) : LicenseInfo :=
  mkLicenseInfo (JBool true) (JStr "ok") tier JUndefined JUndefined JUndefined.

Definition tierBody (tier : JsValue) : JsValue :=
  JObj [("valid", JBool true); ("message", JStr "ok");
        ("license", JObj [("type", tier)])].

(** A deployment with the sample license, at time [t], on network [net]. *)
Definition configuredWorld (t : Z) (net : Request -> FetchOutcome) : World :=
  mkWorld t None (Parsed sampleConfig) net.

(** A deployment without config.json, at time [t]. *)
Definition bareWorld (t : Z) : World := mkWorld t None NoFile unreachable.

(** The state after [c] was cached at time [last]. *)
Definition cachedStore (c : LicenseInfo) (last : Z) : Store :=
  mkStore (Some c) last.

(** ** Sequences of operations *)





(** The tiers in the order of what they unlock. *)
Definition tierRank (tier : JsValue) : nat :=
  if strictEqStr tier "lifetime" || strictEqStr tier "enterprise" then 2%nat
  else if strictEqStr tier "pro" then 1%nat
  else 0%nat.

(** * Properties *)

(** ** How the operations run *)

Lemma store_eta (s : Store) : mkStore (licenseCache s) (lastVerifyTime s) = s.
Proof. destruct s; reflexivity. Qed.

Ltac unfold_js :=
  unfold tryCatch, bind, ret, throw, liftC, existsSync, readConfigJson,
    readEnvLicenseServer, dateNow, getCache, getLastVerifyTime, setCache,
    setLastVerifyTime, fetch, responseJson in *;
  cbv beta in *.

(** [getLicenseConfig] always returns, leaves the state alone, and depends on
    the world only. *)
Lemma getLicenseConfig_run (w : World) (s : Store) :
  getLicenseConfig w s = (Normal (readLicenseConfig w), s, configTrace w).
Proof.
  destruct w as [t env file net].
  unfold readLicenseConfig, configTrace, getLicenseConfig. unfold_js.
  destruct file as [ | e | e | c]; simpl; try reflexivity.
  destruct c as [ | | b | n | str | items | fields]; simpl; try reflexivity.
  destruct (lookupField "license" fields) as [ | | b | n | str | items | lf];
    simpl; try reflexivity.
  destruct (truthy (lookupField "domain" lf)); simpl; try reflexivity.
  destruct (truthy (lookupField "licenseKey" lf)); reflexivity.
Qed.

(** So does [getLicenseServer]. *)
Lemma getLicenseServer_run (w : World) (s : Store) :
  getLicenseServer w s = (Normal (licenseServerOf w), s, serverTrace w).
Proof.
  destruct w as [t env file net].
  unfold licenseServerOf, serverTrace, getLicenseServer. unfold_js.
  destruct env as [v | ]; simpl.
  - destruct (String.eqb v ""); simpl; try reflexivity.
    destruct file as [ | e | e | c]; simpl; try reflexivity.
    destruct c as [ | | b | n | str | items | fields]; simpl; try reflexivity.
    destruct (truthy (lookupField "licenseServer" fields)); reflexivity.
  - destruct file as [ | e | e | c]; simpl; try reflexivity.
    destruct c as [ | | b | n | str | items | fields]; simpl; try reflexivity.
    destruct (truthy (lookupField "licenseServer" fields)); reflexivity.
Qed.

(** The server address is never falsy. *)
Lemma licenseServerOf_truthy (w : World) : truthy (licenseServerOf w) = true.
Proof.
  destruct w as [t env file net].
  unfold licenseServerOf, getLicenseServer. unfold_js.
  destruct env as [v | ]; simpl.
  - destruct (String.eqb v "") eqn:E; simpl; [ | rewrite E; reflexivity].
    destruct file as [ | e | e | c]; simpl; try reflexivity.
    destruct c as [ | | b | n | str | items | fields]; simpl; try reflexivity.
    destruct (truthy (lookupField "licenseServer" fields)) eqn:T; simpl; auto.
  - destruct file as [ | e | e | c]; simpl; try reflexivity.
    destruct c as [ | | b | n | str | items | fields]; simpl; try reflexivity.
    destruct (truthy (lookupField "licenseServer" fields)) eqn:T; simpl; auto.
Qed.

(** *** [verifyLicense], path by path *)

Lemma verifyLicense_hit (forceRefresh : bool) (w : World) (s : Store)
    (c : LicenseInfo) :
  cacheHit forceRefresh (licenseCache s) (now w) (lastVerifyTime s) = Some c ->
  verifyLicense forceRefresh w s = (Normal c, s, []).
Proof.
  intros H. unfold verifyLicense. unfold_js. simpl. rewrite H. reflexivity.
Qed.

Lemma verifyLicense_unconfigured (forceRefresh : bool) (w : World) (s : Store) :
  cacheHit forceRefresh (licenseCache s) (now w) (lastVerifyTime s) = None ->
  readLicenseConfig w = None ->
  verifyLicense forceRefresh w s =
    (Normal notConfiguredResult,
     mkStore (Some notConfiguredResult) (now w),
     configTrace w).
Proof.
  intros H C. unfold verifyLicense. unfold_js. simpl. rewrite H.
  rewrite getLicenseConfig_run, C. simpl. rewrite app_nil_r. reflexivity.
Qed.

Lemma verifyLicense_failure_cached (forceRefresh : bool) (w : World) (s : Store)
    (cfg : LicenseConfig) (e : JsError) (c : LicenseInfo) :
  cacheHit forceRefresh (licenseCache s) (now w) (lastVerifyTime s) = None ->
  readLicenseConfig w = Some cfg ->
  exchangeError (network w (verifyRequestOf w cfg)) = Some e ->
  licenseCache s = Some c ->
  verifyLicense forceRefresh w s = (Normal c, s, verifyTrace w cfg).
Proof.
  intros H C E K. unfold verifyLicense, verifyTrace, verifyRequestOf in *.
  unfold_js. simpl. rewrite H.
  rewrite getLicenseConfig_run, C. rewrite getLicenseServer_run.
  destruct (network w (verifyRequest (licenseServerOf w) cfg))
    as [e' | [ | ] [e' | data]]; simpl in *;
    try (rewrite K; simpl; rewrite ?app_nil_r; reflexivity).
  destruct data; simpl in *; try discriminate;
    rewrite K; simpl; rewrite ?app_nil_r; reflexivity.
Qed.

Lemma verifyLicense_failure_fresh (forceRefresh : bool) (w : World) (s : Store)
    (cfg : LicenseConfig) (e : JsError) :
  cacheHit forceRefresh (licenseCache s) (now w) (lastVerifyTime s) = None ->
  readLicenseConfig w = Some cfg ->
  exchangeError (network w (verifyRequestOf w cfg)) = Some e ->
  licenseCache s = None ->
  verifyLicense forceRefresh w s =
    (Normal (verifyFailedResult e),
     mkStore (Some (verifyFailedResult e)) (now w),
     verifyTrace w cfg).
Proof.
  intros H C E K. unfold verifyLicense, verifyTrace, verifyRequestOf in *.
  unfold_js. simpl. rewrite H.
  rewrite getLicenseConfig_run, C. rewrite getLicenseServer_run.
  destruct (network w (verifyRequest (licenseServerOf w) cfg))
    as [e' | [ | ] [e' | data]]; simpl in *;
    try (injection E as <-; rewrite K; simpl; rewrite ?app_nil_r; reflexivity).
  destruct data; simpl in *; try discriminate;
    injection E as <-; rewrite K; simpl; rewrite ?app_nil_r; reflexivity.
Qed.

Lemma verifyLicense_success (forceRefresh : bool) (w : World) (s : Store)
    (cfg : LicenseConfig) :
  cacheHit forceRefresh (licenseCache s) (now w) (lastVerifyTime s) = None ->
  readLicenseConfig w = Some cfg ->
  exchangeError (network w (verifyRequestOf w cfg)) = None ->
  verifyLicense forceRefresh w s =
    (Normal (verifiedResult (responseData (network w (verifyRequestOf w cfg)))),
     mkStore
       (Some (verifiedResult (responseData (network w (verifyRequestOf w cfg)))))
       (now w),
     verifyTrace w cfg).
Proof.
  intros H C E. unfold verifyLicense, verifyTrace, verifyRequestOf in *.
  unfold_js. simpl. rewrite H.
  rewrite getLicenseConfig_run, C. rewrite getLicenseServer_run.
  destruct (network w (verifyRequest (licenseServerOf w) cfg))
    as [e' | [ | ] [e' | data]]; simpl in *; try discriminate.
  destruct data; simpl in *; try discriminate;
    rewrite ?app_nil_r; reflexivity.
Qed.

(** *** The guard of the cache *)

Lemma cacheHit_within (c : LicenseInfo) (t last : Z) :
  t - last < 3600000 -> cacheHit false (Some c) t last = Some c.
Proof.
  intros H. unfold cacheHit, VERIFY_INTERVAL. simpl.
  destruct (t - last <? 3600000) eqn:E; [reflexivity | ].
  apply Z.ltb_ge in E. lia.
Qed.

Lemma cacheHit_forced (cache : option LicenseInfo) (t last : Z) :
  cacheHit true cache t last = None.
Proof. reflexivity. Qed.

Lemma cacheHit_empty (forceRefresh : bool) (t last : Z) :
  cacheHit forceRefresh None t last = None.
Proof. destruct forceRefresh; reflexivity. Qed.

Lemma cacheHit_elapsed (forceRefresh : bool) (cache : option LicenseInfo)
    (t last : Z) :
  3600000 <= t - last -> cacheHit forceRefresh cache t last = None.
Proof.
  intros H. unfold cacheHit, VERIFY_INTERVAL.
  destruct forceRefresh, cache; simpl; try reflexivity.
  destruct (t - last <? 3600000) eqn:E; [ | reflexivity].
  apply Z.ltb_lt in E. lia.
Qed.

(** What the guard serves is the cache entry. *)
Lemma cacheHit_some (forceRefresh : bool) (cache : option LicenseInfo)
    (t last : Z) (c : LicenseInfo) :
  cacheHit forceRefresh cache t last = Some c ->
  forceRefresh = false /\ cache = Some c /\ t - last < 3600000.
Proof.
  unfold cacheHit, VERIFY_INTERVAL.
  destruct forceRefresh, cache as [c' | ]; simpl; try discriminate.
  destruct (t - last <? 3600000) eqn:E; try discriminate.
  intros H. injection H as <-. apply Z.ltb_lt in E. auto.
Qed.

(** *** Traces *)

Lemma fetches_app (t1 t2 : list Event) :
  fetches (t1 ++ t2) = (fetches t1 ++ fetches t2)%list.
Proof.
  induction t1 as [ | e t1 IH]; [reflexivity | ].
  destruct e; simpl; rewrite IH; reflexivity.
Qed.

Lemma fetches_configTrace (w : World) : fetches (configTrace w) = [].
Proof.
  destruct w as [t env file net]. unfold configTrace, getLicenseConfig.
  unfold_js.
  destruct file as [ | e | e | c]; simpl; try reflexivity.
  destruct c as [ | | b | n | str | items | fields]; simpl; try reflexivity.
  destruct (lookupField "license" fields) as [ | | b | n | str | items | lf];
    simpl; try reflexivity.
  destruct (truthy (lookupField "domain" lf)); simpl; try reflexivity.
  destruct (truthy (lookupField "licenseKey" lf)); reflexivity.
Qed.

Lemma readsConfig_configTrace (w : World) : readsConfig (configTrace w) = true.
Proof.
  destruct w as [t env file net]. unfold configTrace, getLicenseConfig.
  unfold_js.
  destruct file as [ | e | e | c]; simpl; try reflexivity.
  destruct c as [ | | b | n | str | items | fields]; simpl; try reflexivity.
  destruct (lookupField "license" fields) as [ | | b | n | str | items | lf];
    simpl; try reflexivity.
  destruct (truthy (lookupField "domain" lf)); simpl; try reflexivity.
  destruct (truthy (lookupField "licenseKey" lf)); reflexivity.
Qed.

Lemma fetches_serverTrace (w : World) : fetches (serverTrace w) = [].
Proof.
  destruct w as [t env file net]. unfold serverTrace, getLicenseServer.
  unfold_js.
  destruct env as [v | ]; simpl.
  - destruct (String.eqb v ""); simpl; try reflexivity.
    destruct file as [ | e | e | c]; simpl; try reflexivity.
    destruct c as [ | | b | n | str | items | fields]; simpl; try reflexivity.
    destruct (truthy (lookupField "licenseServer" fields)); reflexivity.
  - destruct file as [ | e | e | c]; simpl; try reflexivity.
    destruct c as [ | | b | n | str | items | fields]; simpl; try reflexivity.
    destruct (truthy (lookupField "licenseServer" fields)); reflexivity.
Qed.

Lemma fetches_verifyTrace (w : World) (cfg : LicenseConfig) :
  fetches (verifyTrace w cfg) = [verifyRequestOf w cfg].
Proof.
  unfold verifyTrace. rewrite !fetches_app.
  now rewrite fetches_configTrace, fetches_serverTrace.
Qed.

Lemma readsConfig_verifyTrace (w : World) (cfg : LicenseConfig) :
  readsConfig (verifyTrace w cfg) = true.
Proof.
  unfold verifyTrace, readsConfig. rewrite existsb_app.
  fold (readsConfig (configTrace w)). now rewrite readsConfig_configTrace.
Qed.

(** *** When the configuration is absent *)

Lemma readLicenseConfig_absent (w : World) :
  readLicenseConfig w = None <-> configAbsent (configFile w) = true.
Proof.
  destruct w as [t env file net]. unfold readLicenseConfig, getLicenseConfig.
  unfold_js.
  destruct file as [ | e | e | c]; simpl; try tauto.
  destruct c as [ | | b | n | str | items | fields]; simpl; try tauto.
  destruct (lookupField "license" fields) as [ | | b | n | str | items | lf];
    simpl; try tauto.
  destruct (truthy (lookupField "domain" lf)); simpl; try tauto.
  destruct (truthy (lookupField "licenseKey" lf)); simpl; try tauto.
  split; discriminate.
Qed.

(** *** [activateLicense], path by path *)

Lemma activateLicense_failure (domain licenseKey : string) (w : World)
    (s : Store) (e : JsError) :
  activationError (network w (activateRequestOf w domain licenseKey)) = Some e ->
  activateLicense domain licenseKey w s =
    (Normal (mkActivationOutcome (JBool false)
               (JStr (activateFailedPrefix ++ errMessage e)) None),
     s, activateTrace w domain licenseKey).
Proof.
  intros E. unfold activateLicense, activateTrace, activateRequestOf in *.
  unfold_js. rewrite getLicenseServer_run. simpl.
  rewrite licenseServerOf_truthy. simpl.
  destruct (network w (activateRequest (licenseServerOf w) domain licenseKey))
    as [e' | ok [e' | data]]; simpl in *.
  - injection E as <-. rewrite ?app_nil_r; reflexivity.
  - destruct ok; injection E as <-; rewrite ?app_nil_r; reflexivity.
  - destruct ok, data; simpl in *; try discriminate;
      injection E as <-; rewrite ?app_nil_r; reflexivity.
Qed.

Lemma activateLicense_refused (domain licenseKey : string) (w : World)
    (s : Store) :
  let o := network w (activateRequestOf w domain licenseKey) in
  activationError o = None ->
  truthy (activationSuccess o) = false ->
  activateLicense domain licenseKey w s =
    (Normal (mkActivationOutcome (activationSuccess o)
               (optProp (responseData o) "message") None),
     s, activateTrace w domain licenseKey).
Proof.
  intros o E T. subst o.
  unfold activateLicense, activateTrace, activateRequestOf in *.
  unfold_js. rewrite getLicenseServer_run. simpl.
  rewrite licenseServerOf_truthy. simpl.
  destruct (network w (activateRequest (licenseServerOf w) domain licenseKey))
    as [e' | ok [e' | data]]; simpl in *; try discriminate.
  destruct ok, data; simpl in *; try discriminate;
    try (rewrite ?app_nil_r; reflexivity);
    rewrite T; simpl; rewrite ?app_nil_r; reflexivity.
Qed.

Lemma activateLicense_success (domain licenseKey : string) (w : World)
    (s : Store) :
  let o := network w (activateRequestOf w domain licenseKey) in
  activationError o = None ->
  truthy (activationSuccess o) = true ->
  activateLicense domain licenseKey w s =
    (Normal (mkActivationOutcome (activationSuccess o)
               (optProp (responseData o) "message")
               (Some (activatedLicense (responseData o)))),
     initialStore, activateTrace w domain licenseKey).
Proof.
  intros o E T. subst o.
  unfold activateLicense, activateTrace, activateRequestOf in *.
  unfold_js. rewrite getLicenseServer_run. simpl.
  rewrite licenseServerOf_truthy. simpl.
  destruct (network w (activateRequest (licenseServerOf w) domain licenseKey))
    as [e' | ok [e' | data]]; simpl in *; try discriminate.
  destruct ok, data; simpl in *; try discriminate;
    rewrite T; simpl; rewrite ?app_nil_r; reflexivity.
Qed.

(** *** The feature gate after [verifyLicense] *)

Lemma includes_In (l : list string) (x : string) :
  includes l x = true <-> In x l.
Proof.
  unfold includes. rewrite existsb_exists. split.
  - intros [y [Hy E]]. apply String.eqb_eq in E. now subst.
  - intros H. exists x. split; [assumption | apply String.eqb_refl].
Qed.

Lemma includes_not_In (l : list string) (x : string) :
  includes l x = false <-> ~ In x l.
Proof.
  rewrite <- includes_In. destruct (includes l x); split; intros H;
    try reflexivity; try discriminate; try (intros D; discriminate).
  exfalso. now apply H.
Qed.

Lemma strictEqStr_true (v : JsValue) (k : string) :
  strictEqStr v k = true <-> v = JStr k.
Proof.
  destruct v; simpl; split; intros H; try discriminate.
  - apply String.eqb_eq in H. now subst.
  - injection H as ->. apply String.eqb_refl.
Qed.

Lemma strictEqStr_false (v : JsValue) (k : string) :
  strictEqStr v k = false <-> v <> JStr k.
Proof.
  rewrite <- strictEqStr_true. destruct (strictEqStr v k); split; intros H;
    try reflexivity; try discriminate; try (intros D; discriminate).
  exfalso. now apply H.
Qed.

Section Gate.

Variables (feature : string) (w : World) (s s' : Store) (t : list Event).
Variable license : LicenseInfo.
Hypothesis verified : verifyLicense false w s = (Normal license, s', t).

Lemma gate_invalid :
  truthy (valid license) = false ->
  checkFeatureAccess feature w s =
    (Normal (mkFeatureAccess false (message license)), s', t).
Proof.
  intros V. unfold checkFeatureAccess. unfold_js. rewrite verified, V.
  simpl. rewrite ?app_nil_r; reflexivity.
Qed.

Lemma gate_unlimited :
  truthy (valid license) = true ->
  type license = JStr "lifetime" \/ type license = JStr "enterprise" ->
  checkFeatureAccess feature w s =
    (Normal (mkFeatureAccess true JUndefined), s', t).
Proof.
  intros V T. unfold checkFeatureAccess. unfold_js. rewrite verified, V.
  destruct T as [-> | ->]; simpl; rewrite ?app_nil_r; reflexivity.
Qed.

Lemma gate_pro_feature_denied :
  truthy (valid license) = true ->
  type license <> JStr "lifetime" ->
  type license <> JStr "enterprise" ->
  type license <> JStr "pro" ->
  In feature proFeatures ->
  checkFeatureAccess feature w s =
    (Normal (mkFeatureAccess false (JStr requiresProMessage)), s', t).
Proof.
  intros V L E P F. unfold checkFeatureAccess. unfold_js. rewrite verified, V.
  apply strictEqStr_false in L, E, P. apply includes_In in F.
  rewrite L, E, P, F. simpl. rewrite ?app_nil_r; reflexivity.
Qed.

Lemma gate_pro_tier :
  truthy (valid license) = true ->
  type license = JStr "pro" ->
  checkFeatureAccess feature w s =
    (Normal (mkFeatureAccess true JUndefined), s', t).
Proof.
  intros V P. unfold checkFeatureAccess. unfold_js. rewrite verified, V, P.
  simpl. rewrite andb_false_r. rewrite ?app_nil_r; reflexivity.
Qed.

Lemma gate_open_feature :
  truthy (valid license) = true ->
  ~ In feature proFeatures ->
  checkFeatureAccess feature w s =
    (Normal (mkFeatureAccess true JUndefined), s', t).
Proof.
  intros V F. unfold checkFeatureAccess. unfold_js. rewrite verified, V.
  apply includes_not_In in F. rewrite F. simpl.
  destruct (strictEqStr (type license) "lifetime"
            || strictEqStr (type license) "enterprise");
    rewrite ?app_nil_r; reflexivity.
Qed.

End Gate.

(** *** [getLicenseStatus] *)

Lemma getLicenseStatus_unconfigured (w : World) (s : Store) :
  readLicenseConfig w = None ->
  getLicenseStatus w s =
    (Normal (mkLicenseStatus false (JBool false) None None), s, configTrace w).
Proof.
  intros C. unfold getLicenseStatus. unfold_js.
  rewrite getLicenseConfig_run, C. rewrite ?app_nil_r; reflexivity.
Qed.

Lemma getLicenseStatus_configured (w : World) (s s' : Store)
    (cfg : LicenseConfig) (license : LicenseInfo) (t : list Event) :
  readLicenseConfig w = Some cfg ->
  verifyLicense false w s = (Normal license, s', t) ->
  getLicenseStatus w s =
    (Normal (mkLicenseStatus true (valid license) (Some license)
               (Some (domain cfg))),
     s', (configTrace w ++ t)%list).
Proof.
  intros C V. unfold getLicenseStatus. unfold_js.
  rewrite getLicenseConfig_run, C, V. rewrite ?app_nil_r; reflexivity.
Qed.

(** ** The cache during an outage *)

(** C1.  When the license is configured, the call goes to the network (it is
    forced, or the entry is at least one interval old) and the exchange fails
    (rejected fetch, timeout, response that is not ok, unparsable body), a
    call with an entry in the cache returns that entry and leaves the state,
    entry and [lastVerifyTime], as it was; the one request sent is the
    verification request. *)
Theorem C1_outage_keeps_stale_entry
    (forceRefresh : bool) (w : World) (s : Store) (cfg : LicenseConfig)
    (e : JsError) (c : LicenseInfo) :
  readLicenseConfig w = Some cfg ->
  forceRefresh = true \/ 3600000 <= now w - lastVerifyTime s ->
  exchangeError (network w (verifyRequestOf w cfg)) = Some e ->
  licenseCache s = Some c ->
  exists t,
    verifyLicense forceRefresh w s = (Normal c, s, t) /\
    fetches t = [verifyRequestOf w cfg].
Proof.
  intros C R E K. exists (verifyTrace w cfg). split.
  - apply verifyLicense_failure_cached with (e := e); try assumption.
    destruct R as [-> | R]; [apply cacheHit_forced | now apply cacheHit_elapsed].
  - apply fetches_verifyTrace.
Qed.

Lemma C1_witness :
  exists t,
    verifyLicense false (configuredWorld 4000000 unreachable)
      (cachedStore lifetimeInfo 1000)
    = (Normal lifetimeInfo, cachedStore lifetimeInfo 1000, t) /\
    fetches t =
      [verifyRequestOf (configuredWorld 4000000 unreachable) sampleLicenseConfig].
Proof.
  apply (C1_outage_keeps_stale_entry false (configuredWorld 4000000 unreachable)
           (cachedStore lifetimeInfo 1000) sampleLicenseConfig
           (mkError "fetch failed") lifetimeInfo).
  - reflexivity.
  - right. simpl. lia.
  - reflexivity.
  - reflexivity.
Defined.

(** The refresh clock is not reset by the outage: the unforced call that
    follows, however soon, goes to the network again. *)
Lemma outage_retried_at_once
    (w1 w2 : World) (s : Store) (cfg1 cfg2 : LicenseConfig) (e1 e2 : JsError)
    (c : LicenseInfo) :
  licenseCache s = Some c ->
  3600000 <= now w1 - lastVerifyTime s ->
  now w1 <= now w2 ->
  readLicenseConfig w1 = Some cfg1 ->
  readLicenseConfig w2 = Some cfg2 ->
  exchangeError (network w1 (verifyRequestOf w1 cfg1)) = Some e1 ->
  exchangeError (network w2 (verifyRequestOf w2 cfg2)) = Some e2 ->
  runCalls (verifyLicense false) [w1; w2] s =
    ([Normal c; Normal c], s, (verifyTrace w1 cfg1 ++ verifyTrace w2 cfg2)%list).
Proof.
  intros K R L C1 C2 E1 E2. simpl.
  rewrite (verifyLicense_failure_cached false w1 s cfg1 e1 c); auto.
  2: { apply cacheHit_elapsed. exact R. }
  rewrite (verifyLicense_failure_cached false w2 s cfg2 e2 c); auto.
  2: { apply cacheHit_elapsed. lia. }
  rewrite app_nil_r. reflexivity.
Qed.

(** ** The cache within the interval *)

(** C2.  With an entry in the cache, unforced calls made less than one hour
    (3600000 ms) after [lastVerifyTime] each return the entry, touch neither
    config.json nor the network and leave the state as it was; so does any
    sequence of such calls. *)
Theorem C2_cached_within_interval
    (ws : list World) (s : Store) (c : LicenseInfo) :
  licenseCache s = Some c ->
  Forall (fun w => now w - lastVerifyTime s < 3600000) ws ->
  (forall w, In w ws -> verifyLicense false w s = (Normal c, s, [])) /\
  runCalls (verifyLicense false) ws s = (map (fun _ => Normal c) ws, s, []).
Proof.
  intros K F.
  assert (One : forall w, now w - lastVerifyTime s < 3600000 ->
                          verifyLicense false w s = (Normal c, s, [])).
  { intros w H. apply verifyLicense_hit. rewrite K. now apply cacheHit_within. }
  split.
  - intros w I. apply One. rewrite Forall_forall in F. now apply F.
  - induction F as [ | w rest H F IH]; [reflexivity | ].
    simpl. rewrite (One w H), IH. reflexivity.
Qed.

Lemma C2_witness :
  runCalls (verifyLicense false)
    [configuredWorld 2000 unreachable; bareWorld 3000;
     configuredWorld 3600999 (answers (tierBody (JStr "pro")))]
    (cachedStore lifetimeInfo 1000)
  = ([Normal lifetimeInfo; Normal lifetimeInfo; Normal lifetimeInfo],
     cachedStore lifetimeInfo 1000, []).
Proof.
  apply (C2_cached_within_interval
           [configuredWorld 2000 unreachable; bareWorld 3000;
            configuredWorld 3600999 (answers (tierBody (JStr "pro")))]
           (cachedStore lifetimeInfo 1000) lifetimeInfo).
  - reflexivity.
  - repeat constructor; simpl; lia.
Defined.

(** ** The tier rules *)

(** C3.  On a valid result, a feature of the restricted set is allowed for
    the tiers lifetime, enterprise and pro and denied for standard with the
    fixed reason; with tier lifetime or enterprise every feature name is
    allowed. *)
Theorem C3_tier_rules
    (feature : string) (w : World) (s s' : Store) (t : list Event)
    (license : LicenseInfo) :
  verifyLicense false w s = (Normal license, s', t) ->
  truthy (valid license) = true ->
  (In feature proFeatures ->
     (type license = JStr "lifetime" \/ type license = JStr "enterprise"
      \/ type license = JStr "pro" ->
      checkFeatureAccess feature w s =
        (Normal (mkFeatureAccess true JUndefined), s', t)) /\
     (type license = JStr "standard" ->
      checkFeatureAccess feature w s =
        (Normal (mkFeatureAccess false (JStr "此功能需要 Pro 版授权")), s', t))) /\
  (type license = JStr "lifetime" \/ type license = JStr "enterprise" ->
   checkFeatureAccess feature w s =
     (Normal (mkFeatureAccess true JUndefined), s', t)).
Proof.
  intros V T. split; [intros F; split | ].
  - intros [L | [E | P]].
    + eapply gate_unlimited; eauto.
    + eapply gate_unlimited; eauto.
    + eapply gate_pro_tier; eauto.
  - intros S. eapply gate_pro_feature_denied; eauto; rewrite S; discriminate.
  - intros U. eapply gate_unlimited; eauto.
Qed.

Lemma C3_witness :
  checkFeatureAccess "telegram"
    (configuredWorld 5000 (answers (tierBody (JStr "standard")))) initialStore
  = (Normal (mkFeatureAccess false (JStr "此功能需要 Pro 版授权")),
     cachedStore (tierInfo (JStr "standard")) 5000,
     verifyTrace (configuredWorld 5000 (answers (tierBody (JStr "standard"))))
       sampleLicenseConfig) /\
  checkFeatureAccess "telegram"
    (configuredWorld 5000 (answers (tierBody (JStr "pro")))) initialStore
  = (Normal (mkFeatureAccess true JUndefined),
     cachedStore (tierInfo (JStr "pro")) 5000,
     verifyTrace (configuredWorld 5000 (answers (tierBody (JStr "pro"))))
       sampleLicenseConfig) /\
  checkFeatureAccess "tickets" (bareWorld 2000) (cachedStore lifetimeInfo 1000)
  = (Normal (mkFeatureAccess true JUndefined), cachedStore lifetimeInfo 1000, []).
Proof.
  split; [ | split].
  - apply (C3_tier_rules "telegram"
             (configuredWorld 5000 (answers (tierBody (JStr "standard"))))
             initialStore (cachedStore (tierInfo (JStr "standard")) 5000)
             (verifyTrace
                (configuredWorld 5000 (answers (tierBody (JStr "standard"))))
                sampleLicenseConfig)
             (tierInfo (JStr "standard")));
      [reflexivity | reflexivity | simpl; tauto | reflexivity].
  - pose proof (C3_tier_rules "telegram"
                  (configuredWorld 5000 (answers (tierBody (JStr "pro"))))
                  initialStore (cachedStore (tierInfo (JStr "pro")) 5000)
                  (verifyTrace
                     (configuredWorld 5000 (answers (tierBody (JStr "pro"))))
                     sampleLicenseConfig)
                  (tierInfo (JStr "pro")) eq_refl eq_refl) as (H & _).
    apply H; simpl; tauto.
  - apply (proj2 (C3_tier_rules "tickets" (bareWorld 2000)
                    (cachedStore lifetimeInfo 1000)
                    (cachedStore lifetimeInfo 1000) [] lifetimeInfo
                    eq_refl eq_refl)).
    left. reflexivity.
Defined.

(** C10.  On a valid result whose tier is absent, or is any value outside
    standard, pro, enterprise and lifetime, each of the four restricted
    features is denied with the fixed reason and every other feature name is
    allowed. *)
Theorem C10_unknown_tier
    (feature : string) (w : World) (s s' : Store) (t : list Event)
    (license : LicenseInfo) :
  verifyLicense false w s = (Normal license, s', t) ->
  truthy (valid license) = true ->
  ~ In (type license)
      [JStr "standard"; JStr "pro"; JStr "enterprise"; JStr "lifetime"] ->
  (In feature ["moviepilot"; "telegram"; "advanced-stats"; "multi-emby"] ->
   checkFeatureAccess feature w s =
     (Normal (mkFeatureAccess false (JStr "此功能需要 Pro 版授权")), s', t)) /\
  (~ In feature ["moviepilot"; "telegram"; "advanced-stats"; "multi-emby"] ->
   checkFeatureAccess feature w s =
     (Normal (mkFeatureAccess true JUndefined), s', t)).
Proof.
  intros V T O. split.
  - intros F. eapply gate_pro_feature_denied; eauto;
      intros E; apply O; rewrite E; simpl; tauto.
  - intros F. eapply gate_open_feature; eauto.
Qed.

Lemma C10_witness :
  checkFeatureAccess "multi-emby"
    (configuredWorld 5000 (answers (tierBody JUndefined))) initialStore
  = (Normal (mkFeatureAccess false (JStr "此功能需要 Pro 版授权")),
     cachedStore (tierInfo JUndefined) 5000,
     verifyTrace (configuredWorld 5000 (answers (tierBody JUndefined)))
       sampleLicenseConfig) /\
  checkFeatureAccess "tickets"
    (configuredWorld 5000 (answers (tierBody (JStr "trial")))) initialStore
  = (Normal (mkFeatureAccess true JUndefined),
     cachedStore (tierInfo (JStr "trial")) 5000,
     verifyTrace (configuredWorld 5000 (answers (tierBody (JStr "trial"))))
       sampleLicenseConfig).
Proof.
  split.
  - apply (C10_unknown_tier "multi-emby"
             (configuredWorld 5000 (answers (tierBody JUndefined)))
             initialStore (cachedStore (tierInfo JUndefined) 5000)
             (verifyTrace (configuredWorld 5000 (answers (tierBody JUndefined)))
                sampleLicenseConfig)
             (tierInfo JUndefined)).
    + reflexivity.
    + reflexivity.
    + simpl. intros [H | [H | [H | [H | H]]]]; try discriminate H; exact H.
    + simpl. tauto.
  - apply (C10_unknown_tier "tickets"
             (configuredWorld 5000 (answers (tierBody (JStr "trial"))))
             initialStore (cachedStore (tierInfo (JStr "trial")) 5000)
             (verifyTrace
                (configuredWorld 5000 (answers (tierBody (JStr "trial"))))
                sampleLicenseConfig)
             (tierInfo (JStr "trial"))).
    + reflexivity.
    + reflexivity.
    + simpl. intros [H | [H | [H | [H | H]]]]; try discriminate H; exact H.
    + simpl. intros [H | [H | [H | [H | H]]]]; try discriminate H; exact H.
Defined.

(** ** The first verification fails *)

(** C5.  With nothing cached and the license configured, a call whose
    exchange fails with error [e] returns the result with [valid] false and
    the message "授权验证失败: " followed by the message of [e], and stores
    it in the cache with the time of the call; [checkFeatureAccess] in that
    state denies with that message as the reason. *)
Theorem C5_first_failure_is_cached
    (forceRefresh : bool) (feature : string) (w : World) (s : Store)
    (cfg : LicenseConfig) (e : JsError) :
  licenseCache s = None ->
  readLicenseConfig w = Some cfg ->
  exchangeError (network w (verifyRequestOf w cfg)) = Some e ->
  let failure :=
    mkLicenseInfo (JBool false) (JStr ("授权验证失败: " ++ errMessage e))
      JUndefined JUndefined JUndefined JUndefined in
  verifyLicense forceRefresh w s =
    (Normal failure, mkStore (Some failure) (now w), verifyTrace w cfg) /\
  fetches (verifyTrace w cfg) = [verifyRequestOf w cfg] /\
  checkFeatureAccess feature w s =
    (Normal (mkFeatureAccess false
               (JStr ("授权验证失败: " ++ errMessage e))),
     mkStore (Some failure) (now w), verifyTrace w cfg).
Proof.
  intros K C E failure.
  assert (V : forall force, verifyLicense force w s =
            (Normal failure, mkStore (Some failure) (now w), verifyTrace w cfg)).
  { intros force. apply (verifyLicense_failure_fresh force w s cfg e);
      try assumption.
    rewrite K. apply cacheHit_empty. }
  split; [apply V | split; [apply fetches_verifyTrace | ]].
  apply (gate_invalid feature w s _ _ failure (V false)). reflexivity.
Qed.

Lemma C5_witness :
  checkFeatureAccess "moviepilot" (configuredWorld 5000 unreachable) initialStore
  = (Normal (mkFeatureAccess false (JStr "授权验证失败: fetch failed")),
     cachedStore (verifyFailedResult (mkError "fetch failed")) 5000,
     verifyTrace (configuredWorld 5000 unreachable) sampleLicenseConfig).
Proof.
  apply (C5_first_failure_is_cached false "moviepilot"
           (configuredWorld 5000 unreachable) initialStore sampleLicenseConfig
           (mkError "fetch failed")).
  - reflexivity.
  - reflexivity.
  - reflexivity.
Defined.

(** ** No license configured *)

(** C6, as stated, fails: with config.json missing but a valid result cached
    less than an hour ago, [checkFeatureAccess] serves the cache and allows
    the feature. *)
Lemma C6_counterexample :
  configAbsent (configFile (bareWorld 2000)) = true /\
  checkFeatureAccess "moviepilot" (bareWorld 2000) (cachedStore lifetimeInfo 1000)
  = (Normal (mkFeatureAccess true JUndefined), cachedStore lifetimeInfo 1000, []).
Proof. split; reflexivity. Qed.

(** C6, amended.  When the license configuration is absent (no file, a file
    that cannot be read or parsed, no domain or licenseKey), a call that
    refreshes returns the not-configured result, with [valid] false, and
    stores it with the time of the call; [checkFeatureAccess] denies every
    feature unless the cache serves a valid result (an entry less than one
    hour old); [getLicenseStatus] always returns configured false, valid
    false, and neither info nor config. *)
Theorem C6_unconfigured
    (forceRefresh : bool) (feature : string) (w : World) (s : Store) :
  configAbsent (configFile w) = true ->
  (cacheHit forceRefresh (licenseCache s) (now w) (lastVerifyTime s) = None ->
   verifyLicense forceRefresh w s =
     (Normal notConfiguredResult,
      mkStore (Some notConfiguredResult) (now w), configTrace w) /\
   valid notConfiguredResult = JBool false /\
   message notConfiguredResult =
     JStr "未配置授权信息，请在设置中填写授权域名和授权码" /\
   fetches (configTrace w) = []) /\
  ((forall c, cacheHit false (licenseCache s) (now w) (lastVerifyTime s) = Some c ->
              truthy (valid c) = false) ->
   exists reason s' t,
     checkFeatureAccess feature w s =
       (Normal (mkFeatureAccess false reason), s', t)) /\
  getLicenseStatus w s =
    (Normal (mkLicenseStatus false (JBool false) None None), s, configTrace w).
Proof.
  intros A. apply readLicenseConfig_absent in A. split; [ | split].
  - intros H. split; [now apply verifyLicense_unconfigured | ].
    split; [reflexivity | split; [reflexivity | apply fetches_configTrace]].
  - intros H.
    destruct (cacheHit false (licenseCache s) (now w) (lastVerifyTime s))
      as [c | ] eqn:G.
    + exists (message c), s, [].
      apply gate_invalid; [now apply verifyLicense_hit | now apply H].
    + exists (message notConfiguredResult),
        (mkStore (Some notConfiguredResult) (now w)), (configTrace w).
      apply gate_invalid; [now apply verifyLicense_unconfigured | reflexivity].
  - now apply getLicenseStatus_unconfigured.
Qed.

Lemma C6_witness :
  verifyLicense true
    (mkWorld 2000 None (Parsed (JObj [("license", JObj [("domain", JStr "x.com")])]))
       unreachable)
    (cachedStore lifetimeInfo 1000)
  = (Normal notConfiguredResult, cachedStore notConfiguredResult 2000,
     [EvExistsSync; EvReadFileSync]) /\
  (exists reason s' t,
     checkFeatureAccess "moviepilot" (bareWorld 4000000)
       (cachedStore lifetimeInfo 1000)
     = (Normal (mkFeatureAccess false reason), s', t)) /\
  getLicenseStatus (bareWorld 4000000) (cachedStore lifetimeInfo 1000)
  = (Normal (mkLicenseStatus false (JBool false) None None),
     cachedStore lifetimeInfo 1000, configTrace (bareWorld 4000000)).
Proof.
  split; [ | split].
  - pose proof (C6_unconfigured true "moviepilot"
                  (mkWorld 2000 None
                     (Parsed (JObj [("license", JObj [("domain", JStr "x.com")])]))
                     unreachable)
                  (cachedStore lifetimeInfo 1000) eq_refl) as (H & _).
    exact (proj1 (H eq_refl)).
  - apply (C6_unconfigured false "moviepilot" (bareWorld 4000000)
             (cachedStore lifetimeInfo 1000)).
    + reflexivity.
    + intros c H. discriminate H.
  - apply (C6_unconfigured false "moviepilot" (bareWorld 4000000)
             (cachedStore lifetimeInfo 1000)).
    reflexivity.
Defined.

(** ** Totality *)

Lemma verifyLicense_total (forceRefresh : bool) (w : World) (s : Store) :
  exists r s' t, verifyLicense forceRefresh w s = (Normal r, s', t).
Proof.
  destruct (cacheHit forceRefresh (licenseCache s) (now w) (lastVerifyTime s))
    as [c | ] eqn:G.
  { exists c, s, []. now apply verifyLicense_hit. }
  destruct (readLicenseConfig w) as [cfg | ] eqn:C.
  2: { do 3 eexists. apply verifyLicense_unconfigured; assumption. }
  destruct (exchangeError (network w (verifyRequestOf w cfg))) as [e | ] eqn:E.
  2: { do 3 eexists. apply verifyLicense_success; eassumption. }
  destruct (licenseCache s) as [c | ] eqn:K.
  - do 3 eexists. eapply verifyLicense_failure_cached; eauto.
    now rewrite K.
  - do 3 eexists. eapply verifyLicense_failure_fresh; eauto.
    now rewrite K.
Qed.

(** The gate looks at nothing but what [verifyLicense] gave. *)
Lemma checkFeatureAccess_cong (feature : string) (w w' : World) (s s' : Store) :
  fst (verifyLicense false w s) = fst (verifyLicense false w' s') ->
  fst (checkFeatureAccess feature w s) = fst (checkFeatureAccess feature w' s').
Proof.
  unfold checkFeatureAccess, bind, ret.
  destruct (verifyLicense false w s) as [[r1 s1] t1].
  destruct (verifyLicense false w' s') as [[r2 s2] t2].
  simpl. intros H. injection H as -> ->.
  destruct r2 as [license | e]; [ | reflexivity].
  repeat (match goal with
          | |- context [if ?c then _ else _] => destruct c
          end; cbv beta iota);
    reflexivity.
Qed.

Lemma checkFeatureAccess_total (feature : string) (w : World) (s : Store) :
  exists r s' t, checkFeatureAccess feature w s = (Normal r, s', t).
Proof.
  destruct (verifyLicense_total false w s) as (license & s' & t & V).
  unfold checkFeatureAccess, bind, ret. rewrite V.
  repeat (match goal with
          | |- context [if ?c then _ else _] => destruct c
          end; cbv beta iota);
    do 3 eexists; reflexivity.
Qed.

Lemma getLicenseStatus_total (w : World) (s : Store) :
  exists r s' t, getLicenseStatus w s = (Normal r, s', t).
Proof.
  destruct (readLicenseConfig w) as [cfg | ] eqn:C.
  - destruct (verifyLicense_total false w s) as (license & s' & t & V).
    do 3 eexists. eapply getLicenseStatus_configured; eauto.
  - do 3 eexists. apply getLicenseStatus_unconfigured; assumption.
Qed.

(** Two worlds that differ in config.json only, both without a license
    configuration, are told apart by none of the three operations. *)
Lemma unconfigured_alike (w : World) (f f' : FileRead) (s : Store)
    (forceRefresh : bool) (feature : string) :
  configAbsent f = true -> configAbsent f' = true ->
  fst (verifyLicense forceRefresh (withConfigFile w f) s)
    = fst (verifyLicense forceRefresh (withConfigFile w f') s) /\
  fst (checkFeatureAccess feature (withConfigFile w f) s)
    = fst (checkFeatureAccess feature (withConfigFile w f') s) /\
  fst (getLicenseStatus (withConfigFile w f) s)
    = fst (getLicenseStatus (withConfigFile w f') s).
Proof.
  intros A A'.
  assert (C : readLicenseConfig (withConfigFile w f) = None)
    by now apply readLicenseConfig_absent.
  assert (C' : readLicenseConfig (withConfigFile w f') = None)
    by now apply readLicenseConfig_absent.
  assert (V : forall force,
    fst (verifyLicense force (withConfigFile w f) s)
      = fst (verifyLicense force (withConfigFile w f') s)).
  { intros force.
    destruct (cacheHit force (licenseCache s) (now w) (lastVerifyTime s))
      as [c | ] eqn:G.
    - rewrite !(verifyLicense_hit force _ s c) by exact G. reflexivity.
    - rewrite !verifyLicense_unconfigured by assumption. reflexivity. }
  split; [apply V | split].
  - apply checkFeatureAccess_cong, V.
  - rewrite !getLicenseStatus_unconfigured by assumption. reflexivity.
Qed.

(** C4, as stated, fails: a failed exchange is not always turned into a
    result with [valid] false.  With a valid entry in the cache, older than
    the interval, and the server unreachable, the call returns the entry,
    whose [valid] is true. *)
Lemma C4_counterexample :
  exchangeError
    (network (configuredWorld 4000000 unreachable)
       (verifyRequestOf (configuredWorld 4000000 unreachable) sampleLicenseConfig))
    = Some (mkError "fetch failed") /\
  verifyLicense false (configuredWorld 4000000 unreachable)
    (cachedStore lifetimeInfo 1000)
    = (Normal lifetimeInfo, cachedStore lifetimeInfo 1000,
       verifyTrace (configuredWorld 4000000 unreachable) sampleLicenseConfig) /\
  valid lifetimeInfo = JBool true.
Proof. repeat split. Qed.

(** C4, amended.  [verifyLicense], [checkFeatureAccess] and
    [getLicenseStatus] always return and never throw.  A call that refreshes
    turns a config.json that cannot be read or parsed into the not-configured
    result, and a failed exchange into the cached entry when there is one
    and otherwise into a result with [valid] false and the failure message.
    A config.json that cannot be read or parsed behaves, for the three
    operations, as a missing one. *)
Theorem C4_total
    (forceRefresh : bool) (feature : string) (w : World) (s : Store) :
  (exists r s' t, verifyLicense forceRefresh w s = (Normal r, s', t)) /\
  (exists r s' t, checkFeatureAccess feature w s = (Normal r, s', t)) /\
  (exists r s' t, getLicenseStatus w s = (Normal r, s', t)) /\
  (cacheHit forceRefresh (licenseCache s) (now w) (lastVerifyTime s) = None ->
   (forall e, configFile w = ReadFails e \/ configFile w = ParseFails e ->
      verifyLicense forceRefresh w s =
        (Normal notConfiguredResult,
         mkStore (Some notConfiguredResult) (now w), configTrace w)
      /\ valid notConfiguredResult = JBool false) /\
   (forall cfg e,
      readLicenseConfig w = Some cfg ->
      exchangeError (network w (verifyRequestOf w cfg)) = Some e ->
      match licenseCache s with
      | Some c =>
          verifyLicense forceRefresh w s = (Normal c, s, verifyTrace w cfg)
      | None =>
          verifyLicense forceRefresh w s =
            (Normal (verifyFailedResult e),
             mkStore (Some (verifyFailedResult e)) (now w), verifyTrace w cfg)
          /\ valid (verifyFailedResult e) = JBool false
          /\ message (verifyFailedResult e)
             = JStr ("授权验证失败: " ++ errMessage e)
      end)) /\
  (forall e f, f = ReadFails e \/ f = ParseFails e ->
     fst (verifyLicense forceRefresh (withConfigFile w f) s)
       = fst (verifyLicense forceRefresh (withConfigFile w NoFile) s) /\
     fst (checkFeatureAccess feature (withConfigFile w f) s)
       = fst (checkFeatureAccess feature (withConfigFile w NoFile) s) /\
     fst (getLicenseStatus (withConfigFile w f) s)
       = fst (getLicenseStatus (withConfigFile w NoFile) s)).
Proof.
  split; [apply verifyLicense_total | ].
  split; [apply checkFeatureAccess_total | ].
  split; [apply getLicenseStatus_total | ].
  split.
  - intros G. split.
    + intros e F. split; [ | reflexivity].
      apply verifyLicense_unconfigured; [assumption | ].
      apply readLicenseConfig_absent. destruct F as [-> | ->]; reflexivity.
    + intros cfg e C E. destruct (licenseCache s) as [c | ] eqn:K.
      * eapply verifyLicense_failure_cached; eauto. now rewrite K.
      * split; [ | split; reflexivity].
        eapply verifyLicense_failure_fresh; eauto. now rewrite K.
  - intros e f F. apply unconfigured_alike; [ | reflexivity].
    destruct F as [-> | ->]; reflexivity.
Qed.

Lemma C4_witness :
  verifyLicense false
    (mkWorld 5000 None (ParseFails (mkError "Unexpected token")) unreachable)
    initialStore
  = (Normal notConfiguredResult, cachedStore notConfiguredResult 5000,
     [EvExistsSync; EvReadFileSync]) /\
  verifyLicense true (configuredWorld 5000 unreachable) initialStore
  = (Normal (verifyFailedResult (mkError "fetch failed")),
     cachedStore (verifyFailedResult (mkError "fetch failed")) 5000,
     verifyTrace (configuredWorld 5000 unreachable) sampleLicenseConfig) /\
  fst (getLicenseStatus
         (withConfigFile (bareWorld 5000) (ReadFails (mkError "EACCES")))
         initialStore)
  = fst (getLicenseStatus (withConfigFile (bareWorld 5000) NoFile) initialStore).
Proof.
  split; [ | split].
  - pose proof (C4_total false "telegram"
                  (mkWorld 5000 None (ParseFails (mkError "Unexpected token"))
                     unreachable)
                  initialStore) as (_ & _ & _ & T & _).
    destruct (T eq_refl) as [A _].
    exact (proj1 (A (mkError "Unexpected token") (or_intror eq_refl))).
  - pose proof (C4_total true "telegram" (configuredWorld 5000 unreachable)
                  initialStore) as (_ & _ & _ & T & _).
    destruct (T eq_refl) as [_ B].
    exact (proj1 (B sampleLicenseConfig (mkError "fetch failed")
                    eq_refl eq_refl)).
  - pose proof (C4_total false "telegram" (bareWorld 5000) initialStore)
      as (_ & _ & _ & _ & T).
    destruct (T (mkError "EACCES") (ReadFails (mkError "EACCES"))
                (or_introl eq_refl)) as (_ & _ & G).
    exact G.
Defined.

(** ** Invalidation *)

(** [clearLicenseCache] empties the state. *)
Lemma clearLicenseCache_run (w : World) (s : Store) :
  clearLicenseCache w s = (Normal tt, initialStore, []).
Proof. reflexivity. Qed.

(** What [activateLicense] returns, by the answer of the server. *)
Lemma activateLicense_cases (domain licenseKey : string) (w : World) (s : Store) :
  let o := network w (activateRequestOf w domain licenseKey) in
  exists outcome s',
    activateLicense domain licenseKey w s =
      (Normal outcome, s', activateTrace w domain licenseKey) /\
    ((exists e, activationError o = Some e /\
                success outcome = JBool false /\ s' = s) \/
     (activationError o = None /\ success outcome = activationSuccess o /\
      truthy (activationSuccess o) = false /\ s' = s) \/
     (activationError o = None /\ success outcome = activationSuccess o /\
      truthy (activationSuccess o) = true /\ s' = initialStore)).
Proof.
  intros o.
  destruct (activationError o) as [e | ] eqn:E.
  - eexists _, _. split; [now apply activateLicense_failure with (e := e) | ].
    left. exists e. auto.
  - destruct (truthy (activationSuccess o)) eqn:T.
    + eexists _, _. split; [now apply activateLicense_success | ].
      right. right. auto.
    + eexists _, _. split; [now apply activateLicense_refused | ].
      right. left. auto.
Qed.

(** C7, as stated, fails: after [clearLicenseCache], a call in a deployment
    without config.json reads the configuration and returns the
    not-configured result; it sends nothing to the network. *)
Lemma C7_counterexample :
  clearLicenseCache (bareWorld 1000) (cachedStore lifetimeInfo 1000)
    = (Normal tt, initialStore, []) /\
  verifyLicense false (bareWorld 1001) initialStore
    = (Normal notConfiguredResult, cachedStore notConfiguredResult 1001,
       [EvExistsSync]) /\
  fetches [EvExistsSync] = [].
Proof. repeat split. Qed.

(** C7, amended.  [clearLicenseCache] resets the state to no entry and time
    0.  The next [verifyLicense], whenever it is made and forced or not,
    reads the configuration again; when the license is configured it sends
    one verification request, and when it is not it returns the
    not-configured result without a request.  An [activateLicense] that
    reports success leaves the state reset in the same way. *)
Theorem C7_invalidate_forces_refresh
    (forceRefresh : bool) (w w' : World) (s : Store) :
  clearLicenseCache w s = (Normal tt, mkStore None 0, []) /\
  (exists r s' t,
     verifyLicense forceRefresh w' (mkStore None 0) = (Normal r, s', t) /\
     readsConfig t = true /\
     (forall cfg, readLicenseConfig w' = Some cfg ->
                  fetches t = [verifyRequestOf w' cfg]) /\
     (readLicenseConfig w' = None ->
      fetches t = [] /\ r = notConfiguredResult)) /\
  (forall domain licenseKey outcome s' t,
     activateLicense domain licenseKey w s = (Normal outcome, s', t) ->
     truthy (success outcome) = true ->
     s' = mkStore None 0).
Proof.
  split; [reflexivity | split].
  - assert (G : cacheHit forceRefresh (licenseCache (mkStore None 0)) (now w')
                  (lastVerifyTime (mkStore None 0)) = None)
      by apply cacheHit_empty.
    destruct (readLicenseConfig w') as [cfg | ] eqn:C.
    + destruct (exchangeError (network w' (verifyRequestOf w' cfg)))
        as [e | ] eqn:E.
      * eexists _, _, _. split.
        { eapply verifyLicense_failure_fresh; eauto. }
        split; [apply readsConfig_verifyTrace | split].
        { intros cfg' H. injection H as <-. apply fetches_verifyTrace. }
        { discriminate. }
      * eexists _, _, _. split.
        { eapply verifyLicense_success; eauto. }
        split; [apply readsConfig_verifyTrace | split].
        { intros cfg' H. injection H as <-. apply fetches_verifyTrace. }
        { discriminate. }
    + eexists _, _, _. split.
      { apply verifyLicense_unconfigured; assumption. }
      split; [apply readsConfig_configTrace | split].
      { discriminate. }
      { intros _. split; [apply fetches_configTrace | reflexivity]. }
  - intros domain licenseKey outcome s' t A T.
    destruct (activateLicense_cases domain licenseKey w s)
      as (outcome' & s'' & A' & H).
    rewrite A in A'. injection A' as <- <- _.
    destruct H as [(e & _ & S & _) | [(_ & S & F & _) | (_ & _ & _ & R)]].
    + rewrite S in T. discriminate.
    + rewrite S, F in T. discriminate.
    + exact R.
Qed.

Lemma C7_witness :
  fetches (snd (verifyLicense false (configuredWorld 1001 unreachable)
                  (mkStore None 0)))
    = [verifyRequestOf (configuredWorld 1001 unreachable) sampleLicenseConfig] /\
  fetches (snd (verifyLicense false (bareWorld 1001) (mkStore None 0))) = [] /\
  fst (activateLicense "x.com" "K"
         (configuredWorld 1000 (answers (JObj [("success", JBool true)])))
         (cachedStore lifetimeInfo 1000))
    = (Normal (mkActivationOutcome (JBool true) JUndefined
                 (Some (activatedLicense (JObj [("success", JBool true)])))),
       mkStore None 0).
Proof.
  split; [ | split].
  - pose proof (C7_invalidate_forces_refresh false (bareWorld 1000)
                  (configuredWorld 1001 unreachable) initialStore)
      as (_ & (r & s' & t & V & _ & F & _) & _).
    rewrite V. exact (F sampleLicenseConfig eq_refl).
  - pose proof (C7_invalidate_forces_refresh false (bareWorld 1000)
                  (bareWorld 1001) initialStore)
      as (_ & (r & s' & t & V & _ & _ & F) & _).
    rewrite V. exact (proj1 (F eq_refl)).
  - pose proof (C7_invalidate_forces_refresh false
                  (configuredWorld 1000 (answers (JObj [("success", JBool true)])))
                  (bareWorld 1001) (cachedStore lifetimeInfo 1000))
      as (_ & _ & A).
    rewrite <- (A "x.com" "K" _ _ _ eq_refl eq_refl). reflexivity.
Defined.

(** ** The address of the license server *)

Lemma licenseServerOf_env (w : World) (v : string) :
  envLicenseServer w = Some v -> v <> "" ->
  licenseServerOf w = JStr v /\ serverTrace w = [].
Proof.
  destruct w as [t env file net]. simpl. intros -> N.
  apply String.eqb_neq in N.
  unfold licenseServerOf, serverTrace, getLicenseServer. unfold_js. simpl.
  rewrite N. simpl. auto.
Qed.

Lemma licenseServerOf_config (w : World) (c : JsValue) :
  envLicenseServer w = None \/ envLicenseServer w = Some "" ->
  configFile w = Parsed c ->
  licenseServerOf w =
    if truthy (optProp c "licenseServer") then optProp c "licenseServer"
    else JStr BUILT_IN_LICENSE_SERVER.
Proof.
  destruct w as [t env file net]. simpl. intros E ->.
  unfold licenseServerOf, getLicenseServer. unfold_js.
  destruct E as [-> | ->]; simpl;
    destruct c as [ | | b | n | str | items | fields]; simpl; try reflexivity;
    destruct (truthy (lookupField "licenseServer" fields)); reflexivity.
Qed.

Lemma licenseServerOf_default (w : World) :
  envLicenseServer w = None \/ envLicenseServer w = Some "" ->
  configFile w = NoFile \/
  (exists e, configFile w = ReadFails e \/ configFile w = ParseFails e) ->
  licenseServerOf w = JStr BUILT_IN_LICENSE_SERVER.
Proof.
  destruct w as [t env file net]. simpl. intros E F.
  unfold licenseServerOf, getLicenseServer. unfold_js.
  destruct E as [-> | ->], F as [-> | [e [-> | ->]]]; reflexivity.
Qed.

(** C8.  [getLicenseServer] returns the LICENSE_SERVER environment variable
    when it is set and not empty, without looking at config.json; otherwise
    the [licenseServer] field of config.json when it holds a non-empty value;
    otherwise, also when config.json is missing or cannot be read or parsed,
    the built-in address.  The value returned is that of one source, as it
    is. *)
Theorem C8_server_precedence (w : World) (s : Store) :
  getLicenseServer w s = (Normal (licenseServerOf w), s, serverTrace w) /\
  (forall v, envLicenseServer w = Some v -> v <> "" ->
     licenseServerOf w = JStr v /\ serverTrace w = []) /\
  (envLicenseServer w = None \/ envLicenseServer w = Some "" ->
   (forall c, configFile w = Parsed c ->
      truthy (optProp c "licenseServer") = true ->
      licenseServerOf w = optProp c "licenseServer") /\
   (forall c v, configFile w = Parsed c ->
      optProp c "licenseServer" = JStr v -> v <> "" ->
      licenseServerOf w = JStr v) /\
   (forall c, configFile w = Parsed c ->
      truthy (optProp c "licenseServer") = false ->
      licenseServerOf w = JStr "https://license.flixpilot.ovh") /\
   (configFile w = NoFile ->
      licenseServerOf w = JStr "https://license.flixpilot.ovh") /\
   (forall e, configFile w = ReadFails e \/ configFile w = ParseFails e ->
      licenseServerOf w = JStr "https://license.flixpilot.ovh")).
Proof.
  split; [apply getLicenseServer_run | ].
  split; [apply licenseServerOf_env | ].
  intros E. repeat split.
  - intros c F T. rewrite (licenseServerOf_config w c E F), T. reflexivity.
  - intros c v F V N. rewrite (licenseServerOf_config w c E F), V. simpl.
    apply String.eqb_neq in N. rewrite N. reflexivity.
  - intros c F T. rewrite (licenseServerOf_config w c E F), T. reflexivity.
  - intros F. apply licenseServerOf_default; auto.
  - intros e F. apply licenseServerOf_default; eauto.
Qed.

Lemma C8_witness :
  licenseServerOf
    (mkWorld 0 (Some "http://env")
       (Parsed (JObj [("licenseServer", JStr "http://cfg")])) unreachable)
    = JStr "http://env" /\
  licenseServerOf
    (mkWorld 0 (Some "")
       (Parsed (JObj [("licenseServer", JStr "http://cfg")])) unreachable)
    = JStr "http://cfg" /\
  licenseServerOf
    (mkWorld 0 None (Parsed (JObj [("licenseServer", JStr "")])) unreachable)
    = JStr "https://license.flixpilot.ovh" /\
  licenseServerOf (mkWorld 0 None (ParseFails (mkError "bad")) unreachable)
    = JStr "https://license.flixpilot.ovh".
Proof.
  split; [ | split; [ | split]].
  - pose proof (C8_server_precedence
                  (mkWorld 0 (Some "http://env")
                     (Parsed (JObj [("licenseServer", JStr "http://cfg")]))
                     unreachable) initialStore) as (_ & H & _).
    apply (H "http://env" eq_refl). discriminate.
  - pose proof (C8_server_precedence
                  (mkWorld 0 (Some "")
                     (Parsed (JObj [("licenseServer", JStr "http://cfg")]))
                     unreachable) initialStore) as (_ & _ & H).
    destruct (H (or_intror eq_refl)) as (_ & G & _).
    apply (G _ "http://cfg" eq_refl eq_refl). discriminate.
  - pose proof (C8_server_precedence
                  (mkWorld 0 None (Parsed (JObj [("licenseServer", JStr "")]))
                     unreachable) initialStore) as (_ & _ & H).
    destruct (H (or_introl eq_refl)) as (_ & _ & G & _).
    exact (G _ eq_refl eq_refl).
  - pose proof (C8_server_precedence
                  (mkWorld 0 None (ParseFails (mkError "bad")) unreachable)
                  initialStore) as (_ & _ & H).
    destruct (H (or_introl eq_refl)) as (_ & _ & _ & _ & G).
    exact (G (mkError "bad") (or_intror eq_refl)).
Defined.

(** ** Activation and the cache *)

(** C9.  An [activateLicense] that does not succeed, because the exchange
    fails (rejected fetch, timeout, unparsable body) or because the answer
    carries no truthy [success], returns with the state, cache entry and
    [lastVerifyTime], exactly as it was; a call that changes the state had a
    response with a truthy [success], and left the state empty. *)
Theorem C9_failed_activation_keeps_cache
    (domain licenseKey : string) (w : World) (s : Store) :
  let o := network w (activateRequestOf w domain licenseKey) in
  exists outcome s' t,
    activateLicense domain licenseKey w s = (Normal outcome, s', t) /\
    (forall e, activationError o = Some e ->
       success outcome = JBool false /\ s' = s) /\
    (activationError o = None -> truthy (activationSuccess o) = false ->
       success outcome = activationSuccess o /\ s' = s) /\
    (truthy (success outcome) = false -> s' = s) /\
    (s' <> s ->
       activationError o = None /\ truthy (activationSuccess o) = true /\
       s' = mkStore None 0).
Proof.
  cbv zeta.
  pose proof (activateLicense_cases domain licenseKey w s) as H.
  cbv zeta in H. destruct H as (outcome & s' & A & H).
  exists outcome, s', (activateTrace w domain licenseKey).
  split; [exact A | ].
  destruct H as [(e & E & S & R) | [(E & S & F & R) | (E & S & T & R)]];
    (split; [ | split; [ | split]]); intros; repeat split;
    try congruence; try tauto.
Qed.

Lemma C9_witness :
  snd (fst (activateLicense "x.com" "K" (configuredWorld 1000 unreachable)
              (cachedStore lifetimeInfo 500)))
    = cachedStore lifetimeInfo 500 /\
  snd (fst (activateLicense "x.com" "K"
              (configuredWorld 1000 (answers (JObj [("success", JBool false)])))
              (cachedStore lifetimeInfo 500)))
    = cachedStore lifetimeInfo 500.
Proof.
  split.
  - pose proof (C9_failed_activation_keeps_cache "x.com" "K"
                  (configuredWorld 1000 unreachable)
                  (cachedStore lifetimeInfo 500)) as H.
    cbv zeta in H. destruct H as (outcome & s' & t & A & H & _).
    rewrite A. exact (proj2 (H (mkError "fetch failed") eq_refl)).
  - pose proof (C9_failed_activation_keeps_cache "x.com" "K"
                  (configuredWorld 1000
                     (answers (JObj [("success", JBool false)])))
                  (cachedStore lifetimeInfo 500)) as H.
    cbv zeta in H. destruct H as (outcome & s' & t & A & _ & H & _).
    rewrite A. exact (proj2 (H eq_refl eq_refl)).
Defined.

(** * Further properties of license.ts *)

(** ** [verifyLicense] as a whole *)

(** The five ways a call of [verifyLicense] goes. *)
Lemma verifyLicense_cases (forceRefresh : bool) (w : World) (s : Store) :
  (exists c,
     cacheHit forceRefresh (licenseCache s) (now w) (lastVerifyTime s) = Some c /\
     verifyLicense forceRefresh w s = (Normal c, s, [])) \/
  (cacheHit forceRefresh (licenseCache s) (now w) (lastVerifyTime s) = None /\
   readLicenseConfig w = None /\
   verifyLicense forceRefresh w s =
     (Normal notConfiguredResult, mkStore (Some notConfiguredResult) (now w),
      configTrace w)) \/
  (exists cfg,
     cacheHit forceRefresh (licenseCache s) (now w) (lastVerifyTime s) = None /\
     readLicenseConfig w = Some cfg /\
     ((exists e c,
         exchangeError (network w (verifyRequestOf w cfg)) = Some e /\
         licenseCache s = Some c /\
         verifyLicense forceRefresh w s = (Normal c, s, verifyTrace w cfg)) \/
      (exists e,
         exchangeError (network w (verifyRequestOf w cfg)) = Some e /\
         licenseCache s = None /\
         verifyLicense forceRefresh w s =
           (Normal (verifyFailedResult e),
            mkStore (Some (verifyFailedResult e)) (now w), verifyTrace w cfg)) \/
      (exchangeError (network w (verifyRequestOf w cfg)) = None /\
       verifyLicense forceRefresh w s =
         (Normal (verifiedResult (responseData (network w (verifyRequestOf w cfg)))),
          mkStore
            (Some (verifiedResult
                     (responseData (network w (verifyRequestOf w cfg)))))
            (now w),
          verifyTrace w cfg)))).
Proof.
  destruct (cacheHit forceRefresh (licenseCache s) (now w) (lastVerifyTime s))
    as [c | ] eqn:G.
  { left. exists c. split; [reflexivity | now apply verifyLicense_hit]. }
  right. destruct (readLicenseConfig w) as [cfg | ] eqn:C.
  2: { left. repeat split. apply verifyLicense_unconfigured; assumption. }
  right. exists cfg. repeat split.
  destruct (exchangeError (network w (verifyRequestOf w cfg))) as [e | ] eqn:E.
  - destruct (licenseCache s) as [c | ] eqn:K.
    + left. exists e, c. repeat split.
      eapply verifyLicense_failure_cached; eauto. now rewrite K.
    + right. left. exists e. repeat split.
      eapply verifyLicense_failure_fresh; eauto. now rewrite K.
  - right. right. split; [reflexivity | ].
    apply verifyLicense_success; assumption.
Qed.

Lemma configTrace_not_nil (w : World) : configTrace w <> [].
Proof.
  intros H. pose proof (readsConfig_configTrace w) as R.
  rewrite H in R. discriminate.
Qed.

Lemma verifyTrace_not_nil (w : World) (cfg : LicenseConfig) :
  verifyTrace w cfg <> [].
Proof.
  intros H. pose proof (readsConfig_verifyTrace w cfg) as R.
  rewrite H in R. discriminate.
Qed.

(** X1.  What [verifyLicense] returns is what it leaves in the cache: after
    any call the cache holds the returned result, and the state is either
    untouched or that result stamped with the time of the call. *)
Theorem X1_result_is_cached (forceRefresh : bool) (w : World) (s : Store) :
  exists r s' t,
    verifyLicense forceRefresh w s = (Normal r, s', t) /\
    licenseCache s' = Some r /\
    (s' = s \/ s' = mkStore (Some r) (now w)).
Proof.
  destruct (verifyLicense_cases forceRefresh w s)
    as [(c & G & V) | [(G & C & V) | (cfg & G & C & H)]].
  - exists c, s, []. apply cacheHit_some in G. destruct G as (_ & K & _).
    rewrite K. auto.
  - eexists _, _, _. split; [exact V | ]. simpl. auto.
  - destruct H as [(e & c & E & K & V) | [(e & E & K & V) | (E & V)]].
    + exists c, s, (verifyTrace w cfg). auto.
    + eexists _, _, _. split; [exact V | ]. simpl. auto.
    + eexists _, _, _. split; [exact V | ]. simpl. auto.
Qed.

(** X2.  A call of [verifyLicense] touches nothing exactly when it is
    unforced, an entry is cached and less than 3600000 ms have passed since
    [lastVerifyTime]; any other call reads config.json, and sends either
    nothing or one POST to /api/verify of the resolved server carrying the
    configured licenseKey and domain. *)
Theorem X2_io_of_verifyLicense
    (forceRefresh : bool) (w : World) (s s' : Store) (r : LicenseInfo)
    (t : list Event) :
  verifyLicense forceRefresh w s = (Normal r, s', t) ->
  (t = [] <->
   forceRefresh = false /\ licenseCache s <> None /\
   now w - lastVerifyTime s < 3600000) /\
  (t <> [] -> readsConfig t = true) /\
  (fetches t = [] \/
   exists cfg,
     readLicenseConfig w = Some cfg /\
     fetches t =
       [mkRequest (licenseServerOf w) "/api/verify" (licenseKey cfg) (domain cfg)]).
Proof.
  intros V.
  assert (Miss : cacheHit forceRefresh (licenseCache s) (now w) (lastVerifyTime s)
                 = None ->
                 ~ (forceRefresh = false /\ licenseCache s <> None /\
                    now w - lastVerifyTime s < 3600000)).
  { intros G (F & K & L). subst forceRefresh.
    destruct (licenseCache s) as [c | ]; [ | now apply K].
    rewrite (cacheHit_within c _ _ L) in G. discriminate. }
  destruct (verifyLicense_cases forceRefresh w s)
    as [(c & G & V') | [(G & C & V') | (cfg & G & C & H)]].
  - rewrite V in V'. injection V' as -> -> ->.
    apply cacheHit_some in G. destruct G as (F & K & L).
    split; [ | split; [ | left; reflexivity]].
    + split; [intros _ | reflexivity]. rewrite K. repeat split; auto.
      discriminate.
    + intros N. now contradiction N.
  - rewrite V in V'. injection V' as -> -> ->.
    split; [ | split; [ | left; apply fetches_configTrace]].
    + split; [intros N; now apply configTrace_not_nil in N | ].
      intros B. now apply Miss in B.
    + intros _. apply readsConfig_configTrace.
  - assert (T : t = verifyTrace w cfg).
    { destruct H as [(e & c & E & K & V') | [(e & E & K & V') | (E & V')]];
        rewrite V in V'; now injection V'. }
    subst t. split; [ | split].
    + split; [intros N; now apply verifyTrace_not_nil in N | ].
      intros B. now apply Miss in B.
    + intros _. apply readsConfig_verifyTrace.
    + right. exists cfg. split; [assumption | apply fetches_verifyTrace].
Qed.

Lemma X2_witness :
  snd (verifyLicense false (configuredWorld 3601000 unreachable)
         (cachedStore lifetimeInfo 1000)) <> [] /\
  snd (verifyLicense false (configuredWorld 3600999 unreachable)
         (cachedStore lifetimeInfo 1000)) = [].
Proof.
  split.
  - pose proof (X2_io_of_verifyLicense false
                  (configuredWorld 3601000 unreachable)
                  (cachedStore lifetimeInfo 1000) _ _ _ eq_refl) as (H & _).
    intros N. apply H in N. destruct N as (_ & _ & L). simpl in L. lia.
  - pose proof (X2_io_of_verifyLicense false
                  (configuredWorld 3600999 unreachable)
                  (cachedStore lifetimeInfo 1000) _ _ _ eq_refl) as (H & _).
    apply H. split; [reflexivity | split; [discriminate | simpl; lia]].
Defined.

(** X3.  [verifyLicense] never makes up a valid license: a result whose
    [valid] is truthy is either the entry that was already cached or the
    result built from the body of the response the server gave to this
    call. *)
Theorem X3_valid_comes_from_server
    (forceRefresh : bool) (w : World) (s s' : Store) (r : LicenseInfo)
    (t : list Event) :
  verifyLicense forceRefresh w s = (Normal r, s', t) ->
  truthy (valid r) = true ->
  licenseCache s = Some r \/
  exists cfg,
    readLicenseConfig w = Some cfg /\
    exchangeError (network w (verifyRequestOf w cfg)) = None /\
    r = verifiedResult (responseData (network w (verifyRequestOf w cfg))).
Proof.
  intros V T.
  destruct (verifyLicense_cases forceRefresh w s)
    as [(c & G & V') | [(G & C & V') | (cfg & G & C & H)]].
  - rewrite V in V'. injection V' as -> _ _.
    apply cacheHit_some in G. left. tauto.
  - rewrite V in V'. injection V' as -> _ _. discriminate T.
  - destruct H as [(e & c & E & K & V') | [(e & E & K & V') | (E & V')]];
      rewrite V in V'; injection V' as -> _ _.
    + left. assumption.
    + discriminate T.
    + right. exists cfg. auto.
Qed.

Lemma X3_witness :
  licenseCache initialStore = Some (tierInfo (JStr "pro")) \/
  exists cfg,
    readLicenseConfig (configuredWorld 5000 (answers (tierBody (JStr "pro"))))
      = Some cfg /\
    exchangeError
      (network (configuredWorld 5000 (answers (tierBody (JStr "pro"))))
         (verifyRequestOf
            (configuredWorld 5000 (answers (tierBody (JStr "pro")))) cfg))
      = None /\
    tierInfo (JStr "pro") =
      verifiedResult
        (responseData
           (network (configuredWorld 5000 (answers (tierBody (JStr "pro"))))
              (verifyRequestOf
                 (configuredWorld 5000 (answers (tierBody (JStr "pro")))) cfg))).
Proof.
  apply (X3_valid_comes_from_server false
           (configuredWorld 5000 (answers (tierBody (JStr "pro"))))
           initialStore (cachedStore (tierInfo (JStr "pro")) 5000)
           (tierInfo (JStr "pro"))
           (verifyTrace (configuredWorld 5000 (answers (tierBody (JStr "pro"))))
              sampleLicenseConfig)).
  - reflexivity.
  - reflexivity.
Defined.

Lemma cacheHit_miss (forceRefresh : bool) (cache : option LicenseInfo)
    (t last : Z) :
  forceRefresh = true \/ cache = None \/ 3600000 <= t - last ->
  cacheHit forceRefresh cache t last = None.
Proof.
  intros [-> | [-> | H]].
  - apply cacheHit_forced.
  - apply cacheHit_empty.
  - now apply cacheHit_elapsed.
Qed.

(** X4.  A call that goes past the cache check and does not fall back on a
    stale entry (nothing was cached, or the configuration is absent, or the
    exchange succeeds) stores its result with the time of the call, and
    every unforced call less than 3600000 ms later returns that result
    without touching config.json or the network, whatever the world has
    become: a first failure or a not-configured answer is kept for the hour
    like a verified one. *)
Theorem X4_stored_result_is_served
    (forceRefresh : bool) (w : World) (s : Store) :
  forceRefresh = true \/ licenseCache s = None
    \/ 3600000 <= now w - lastVerifyTime s ->
  licenseCache s = None \/
    (forall cfg, readLicenseConfig w = Some cfg ->
                 exchangeError (network w (verifyRequestOf w cfg)) = None) ->
  exists r t,
    verifyLicense forceRefresh w s = (Normal r, mkStore (Some r) (now w), t) /\
    t <> [] /\
    forall w2, now w2 - now w < 3600000 ->
      verifyLicense false w2 (mkStore (Some r) (now w))
        = (Normal r, mkStore (Some r) (now w), []).
Proof.
  intros R F. apply cacheHit_miss in R.
  assert (Served : forall r w2, now w2 - now w < 3600000 ->
            verifyLicense false w2 (mkStore (Some r) (now w))
              = (Normal r, mkStore (Some r) (now w), [])).
  { intros r w2 L. apply verifyLicense_hit. simpl. now apply cacheHit_within. }
  destruct (verifyLicense_cases forceRefresh w s)
    as [(c & G & V) | [(G & C & V) | (cfg & G & C & H)]].
  - rewrite R in G. discriminate.
  - eexists _, _. split; [exact V | ]. split; [apply configTrace_not_nil | ].
    apply Served.
  - destruct H as [(e & c & E & K & V) | [(e & E & K & V) | (E & V)]].
    + destruct F as [F | F].
      * rewrite F in K. discriminate.
      * rewrite (F cfg C) in E. discriminate.
    + eexists _, _. split; [exact V | ].
      split; [apply verifyTrace_not_nil | ]. apply Served.
    + eexists _, _. split; [exact V | ].
      split; [apply verifyTrace_not_nil | ]. apply Served.
Qed.

Lemma X4_witness :
  exists r t,
    verifyLicense false (configuredWorld 5000 unreachable) initialStore
      = (Normal r, mkStore (Some r) 5000, t) /\
    t <> [] /\
    forall w2, now w2 - 5000 < 3600000 ->
      verifyLicense false w2 (mkStore (Some r) 5000)
        = (Normal r, mkStore (Some r) 5000, []).
Proof.
  apply (X4_stored_result_is_served false (configuredWorld 5000 unreachable)
           initialStore).
  - right. left. reflexivity.
  - left. reflexivity.
Defined.

(** X5.  When the server answers a verification with an ok response whose
    body is not null, the result is read off the body field by field
    ([valid], [message], and [type], [maxUsers], [expiresAt], [customerName]
    of its [license], undefined where the body has none), replaces whatever
    was cached and is stamped with the time of the call. *)
Theorem X5_verified_fields
    (forceRefresh : bool) (w : World) (s : Store) (cfg : LicenseConfig)
    (data : JsValue) :
  forceRefresh = true \/ licenseCache s = None
    \/ 3600000 <= now w - lastVerifyTime s ->
  readLicenseConfig w = Some cfg ->
  network w (verifyRequestOf w cfg) = FetchResponds true (BodyJson data) ->
  data <> JNull -> data <> JUndefined ->
  exists r,
    verifyLicense forceRefresh w s
      = (Normal r, mkStore (Some r) (now w), verifyTrace w cfg) /\
    valid r = optProp data "valid" /\
    message r = optProp data "message" /\
    type r = optProp (optProp data "license") "type" /\
    maxUsers r = optProp (optProp data "license") "maxUsers" /\
    expiresAt r = optProp (optProp data "license") "expiresAt" /\
    customerName r = optProp (optProp data "license") "customerName".
Proof.
  intros R C N N1 N2. apply cacheHit_miss in R.
  exists (verifiedResult data). split; [ | repeat split].
  replace data with (responseData (network w (verifyRequestOf w cfg)))
    by (rewrite N; reflexivity).
  apply verifyLicense_success; try assumption.
  rewrite N. destruct data; try reflexivity; congruence.
Qed.

Lemma X5_witness :
  exists r,
    verifyLicense true
      (configuredWorld 5000 (answers (tierBody (JStr "enterprise"))))
      (cachedStore notConfiguredResult 4000)
      = (Normal r, mkStore (Some r) 5000,
         verifyTrace
           (configuredWorld 5000 (answers (tierBody (JStr "enterprise"))))
           sampleLicenseConfig) /\
    valid r = JBool true /\
    message r = JStr "ok" /\
    type r = JStr "enterprise" /\
    maxUsers r = JUndefined /\
    expiresAt r = JUndefined /\
    customerName r = JUndefined.
Proof.
  apply (X5_verified_fields true
           (configuredWorld 5000 (answers (tierBody (JStr "enterprise"))))
           (cachedStore notConfiguredResult 4000) sampleLicenseConfig
           (tierBody (JStr "enterprise"))).
  - left. reflexivity.
  - reflexivity.
  - reflexivity.
  - discriminate.
  - discriminate.
Defined.

(** X6.  An outage is not throttled once the entry is stale: with an entry
    cached at least 3600000 ms ago, every unforced call made while the
    exchange fails returns the entry, leaves the state as it was and sends a
    request of its own, so [n] calls send [n] requests. *)
Theorem X6_outage_not_throttled
    (ws : list World) (s : Store) (c : LicenseInfo) :
  licenseCache s = Some c ->
  Forall (fun w =>
            3600000 <= now w - lastVerifyTime s /\
            exists cfg e,
              readLicenseConfig w = Some cfg /\
              exchangeError (network w (verifyRequestOf w cfg)) = Some e) ws ->
  exists t,
    runCalls (verifyLicense false) ws s = (map (fun _ => Normal c) ws, s, t) /\
    List.length (fetches t) = List.length ws.
Proof.
  intros K F. induction F as [ | w rest (L & cfg & e & C & E) F IH].
  - exists []. split; reflexivity.
  - destruct IH as (t & R & N).
    exists (verifyTrace w cfg ++ t)%list. simpl.
    rewrite (verifyLicense_failure_cached false w s cfg e c); auto.
    2: { now apply cacheHit_elapsed. }
    rewrite R. split; [reflexivity | ].
    rewrite fetches_app, fetches_verifyTrace. simpl. now rewrite N.
Qed.

Lemma X6_witness :
  exists t,
    runCalls (verifyLicense false)
      [configuredWorld 3601000 unreachable; configuredWorld 3601001 unreachable;
       configuredWorld 3601002 unreachable]
      (cachedStore lifetimeInfo 1000)
    = ([Normal lifetimeInfo; Normal lifetimeInfo; Normal lifetimeInfo],
       cachedStore lifetimeInfo 1000, t) /\
    List.length (fetches t) = 3%nat.
Proof.
  apply (X6_outage_not_throttled
           [configuredWorld 3601000 unreachable;
            configuredWorld 3601001 unreachable;
            configuredWorld 3601002 unreachable]
           (cachedStore lifetimeInfo 1000) lifetimeInfo).
  - reflexivity.
  - repeat constructor; simpl; try lia;
      exists sampleLicenseConfig, (mkError "fetch failed"); split; reflexivity.
Defined.

(** ** [getLicenseConfig] *)

(** X7.  [getLicenseConfig] never throws, never sends anything and leaves
    the state alone; it returns a configuration exactly when config.json
    parses to a value whose [license.domain] and [license.licenseKey] are
    both truthy, and the configuration it returns holds those two values as
    they are. *)
Theorem X7_getLicenseConfig_exact (w : World) (s : Store) :
  exists r t,
    getLicenseConfig w s = (Normal r, s, t) /\
    fetches t = [] /\
    forall cfg,
      r = Some cfg <->
      exists c,
        configFile w = Parsed c /\
        truthy (optProp (optProp c "license") "domain") = true /\
        truthy (optProp (optProp c "license") "licenseKey") = true /\
        cfg = mkLicenseConfig (optProp (optProp c "license") "domain")
                (optProp (optProp c "license") "licenseKey").
Proof.
  exists (readLicenseConfig w), (configTrace w).
  split; [apply getLicenseConfig_run | split; [apply fetches_configTrace | ]].
  intros cfg. destruct w as [t env file net].
  unfold readLicenseConfig, getLicenseConfig. unfold_js. simpl.
  destruct file as [ | e | e | c]; simpl;
    try (split; [discriminate | intros (c & D & _); discriminate]).
  destruct c as [ | | b | n | str | items | fields]; simpl;
    try (split; [discriminate
                | intros (c & D & T & _); injection D as <-; discriminate]).
  destruct (lookupField "license" fields) as [ | | b | n | str | items | lf]
    eqn:L; simpl;
    try (split; [discriminate
                | intros (c & D & T & _); injection D as <-; simpl in T;
                  rewrite L in T; discriminate]).
  destruct (truthy (lookupField "domain" lf)) eqn:D1; simpl.
  - destruct (truthy (lookupField "licenseKey" lf)) eqn:D2; simpl.
    + split.
      * intros H. injection H as <-. eexists. split; [reflexivity | ].
        simpl. rewrite L. simpl. auto.
      * intros (c & D & _ & _ & ->). injection D as <-. simpl. rewrite L.
        reflexivity.
    + split; [discriminate | ].
      intros (c & D & _ & T & _). injection D as <-. simpl in T.
      rewrite L in T. simpl in T. congruence.
  - split; [discriminate | ].
    intros (c & D & T & _). injection D as <-. simpl in T.
    rewrite L in T. simpl in T. congruence.
Qed.

Lemma X7_witness :
  exists c,
    configFile (configuredWorld 0 unreachable) = Parsed c /\
    truthy (optProp (optProp c "license") "domain") = true /\
    truthy (optProp (optProp c "license") "licenseKey") = true /\
    sampleLicenseConfig =
      mkLicenseConfig (optProp (optProp c "license") "domain")
        (optProp (optProp c "license") "licenseKey").
Proof.
  destruct (X7_getLicenseConfig_exact (configuredWorld 0 unreachable)
              initialStore) as (r & t & G & _ & H).
  apply H. injection G as <- _. reflexivity.
Defined.

(** ** [activateLicense] *)

Lemma activation_ignores_ok (ok1 ok2 : bool) (body : BodyRead) :
  activationError (FetchResponds ok1 body) = activationError (FetchResponds ok2 body)
  /\ activationSuccess (FetchResponds ok1 body)
     = activationSuccess (FetchResponds ok2 body).
Proof.
  destruct ok1, ok2, body as [e | data]; try destruct data; split; reflexivity.
Qed.

Lemma activationSuccess_data (o : FetchOutcome) :
  activationSuccess o = optProp (responseData o) "success".
Proof. destruct o as [e | ok [e | data]]; reflexivity. Qed.

(** The server address and what finding it does depend on the environment
    variable and config.json only. *)
Lemma licenseServer_ext (w1 w2 : World) :
  envLicenseServer w1 = envLicenseServer w2 ->
  configFile w1 = configFile w2 ->
  licenseServerOf w1 = licenseServerOf w2 /\ serverTrace w1 = serverTrace w2.
Proof.
  destruct w1 as [t1 env1 file1 net1], w2 as [t2 env2 file2 net2]. simpl.
  intros <- <-. unfold licenseServerOf, serverTrace, getLicenseServer.
  unfold_js.
  destruct env1 as [v | ]; simpl;
    [destruct (String.eqb v ""); simpl; try (split; reflexivity) | ];
    (destruct file1 as [ | e | e | c]; simpl; try (split; reflexivity);
     destruct c as [ | | b | n | str | items | fields]; simpl;
     try (split; reflexivity);
     destruct (truthy (lookupField "licenseServer" fields)); split; reflexivity).
Qed.

(** X8.  [activateLicense] never throws and always sends exactly one POST to
    /api/activate of the resolved server, carrying the two arguments (not
    what config.json holds).  A failed exchange (rejected fetch, timeout,
    unparsable or null body) gives success false, the message
    "激活失败: " followed by the error's message, and no license; otherwise
    [success] and [message] are those of the body, and a license, valid with
    the body's tier, user limit and expiry, is reported exactly when
    [success] is truthy. *)
Theorem X8_activate_outcome (domain licenseKey : string) (w : World) (s : Store) :
  let req :=
    mkRequest (licenseServerOf w) "/api/activate" (JStr licenseKey) (JStr domain) in
  let data := responseData (network w req) in
  exists outcome s' t,
    activateLicense domain licenseKey w s = (Normal outcome, s', t) /\
    fetches t = [req] /\
    (forall e, activationError (network w req) = Some e ->
       outcome = mkActivationOutcome (JBool false)
                   (JStr ("激活失败: " ++ errMessage e)) None) /\
    (activationError (network w req) = None ->
       success outcome = optProp data "success" /\
       activationMessage outcome = optProp data "message" /\
       license outcome =
         if truthy (optProp data "success") then
           Some (mkLicenseInfo (JBool true) (JStr "授权有效")
                   (optProp (optProp data "license") "type")
                   (optProp (optProp data "license") "maxUsers")
                   (optProp (optProp data "license") "expiresAt")
                   JUndefined)
         else None).
Proof.
  cbv zeta.
  change (mkRequest (licenseServerOf w) "/api/activate" (JStr licenseKey)
            (JStr domain))
    with (activateRequestOf w domain licenseKey).
  assert (T : fetches (activateTrace w domain licenseKey)
              = [activateRequestOf w domain licenseKey]).
  { unfold activateTrace. rewrite fetches_app, fetches_serverTrace.
    reflexivity. }
  set (o := network w (activateRequestOf w domain licenseKey)).
  destruct (activationError o) as [e | ] eqn:E.
  - eexists _, _, _. split; [apply activateLicense_failure; exact E | ].
    split; [exact T | ]. split; [ | discriminate].
    intros e' H. injection H as <-. reflexivity.
  - destruct (truthy (activationSuccess o)) eqn:S.
    + eexists _, _, _.
      split; [apply activateLicense_success; [exact E | exact S] | ].
      split; [exact T | ]. split; [discriminate | ]. intros _. simpl.
      rewrite <- activationSuccess_data. fold o. rewrite S. auto.
    + eexists _, _, _.
      split; [apply activateLicense_refused; [exact E | exact S] | ].
      split; [exact T | ]. split; [discriminate | ]. intros _. simpl.
      rewrite <- activationSuccess_data. fold o. rewrite S. auto.
Qed.

Lemma X8_witness :
  fst (fst (activateLicense "x.com" "K" (configuredWorld 1000 unreachable)
              initialStore))
    = Normal (mkActivationOutcome (JBool false)
                (JStr "激活失败: fetch failed") None) /\
  fst (fst (activateLicense "x.com" "K"
              (bareWorld 1000) initialStore))
    = Normal (mkActivationOutcome (JBool false)
                (JStr "激活失败: fetch failed") None).
Proof.
  split.
  - pose proof (X8_activate_outcome "x.com" "K"
                  (configuredWorld 1000 unreachable) initialStore) as H.
    cbv zeta in H. destruct H as (outcome & s' & t & A & _ & F & _).
    rewrite A. simpl. f_equal. exact (F (mkError "fetch failed") eq_refl).
  - pose proof (X8_activate_outcome "x.com" "K" (bareWorld 1000) initialStore)
      as H.
    cbv zeta in H. destruct H as (outcome & s' & t & A & _ & F & _).
    rewrite A. simpl. f_equal. exact (F (mkError "fetch failed") eq_refl).
Defined.

(** X9.  [activateLicense] does not look at the status of the response: two
    responses with the same body, one ok and one not, give the same outcome,
    the same state and the same trace. *)
Theorem X9_activate_ignores_status
    (domain licenseKey : string) (w1 w2 : World) (s : Store)
    (ok1 ok2 : bool) (body : BodyRead) :
  envLicenseServer w1 = envLicenseServer w2 ->
  configFile w1 = configFile w2 ->
  network w1 (activateRequestOf w1 domain licenseKey) = FetchResponds ok1 body ->
  network w2 (activateRequestOf w2 domain licenseKey) = FetchResponds ok2 body ->
  activateLicense domain licenseKey w1 s = activateLicense domain licenseKey w2 s.
Proof.
  intros Env File N1 N2.
  destruct (licenseServer_ext w1 w2 Env File) as [Srv Trc].
  assert (Tr : activateTrace w1 domain licenseKey
               = activateTrace w2 domain licenseKey).
  { unfold activateTrace, activateRequestOf. now rewrite Srv, Trc. }
  destruct (activation_ignores_ok ok1 ok2 body) as [Err Suc].
  destruct (activationError (FetchResponds ok1 body)) as [e | ] eqn:E.
  - assert (E1 : activationError
                   (network w1 (activateRequestOf w1 domain licenseKey)) = Some e)
      by (rewrite N1; exact E).
    assert (E2 : activationError
                   (network w2 (activateRequestOf w2 domain licenseKey)) = Some e)
      by (rewrite N2, <- Err; reflexivity).
    rewrite (activateLicense_failure domain licenseKey w1 s e E1).
    rewrite (activateLicense_failure domain licenseKey w2 s e E2).
    now rewrite Tr.
  - assert (E1 : activationError
                   (network w1 (activateRequestOf w1 domain licenseKey)) = None)
      by (rewrite N1; exact E).
    assert (E2 : activationError
                   (network w2 (activateRequestOf w2 domain licenseKey)) = None)
      by (rewrite N2, <- Err; reflexivity).
    destruct (truthy (activationSuccess (FetchResponds ok1 body))) eqn:S.
    + assert (S1 : truthy (activationSuccess
                     (network w1 (activateRequestOf w1 domain licenseKey))) = true)
        by (rewrite N1; exact S).
      assert (S2 : truthy (activationSuccess
                     (network w2 (activateRequestOf w2 domain licenseKey))) = true)
        by (rewrite N2, <- Suc; exact S).
      rewrite (activateLicense_success domain licenseKey w1 s E1 S1).
      rewrite (activateLicense_success domain licenseKey w2 s E2 S2).
      rewrite N1, N2, Tr, Suc. reflexivity.
    + assert (S1 : truthy (activationSuccess
                     (network w1 (activateRequestOf w1 domain licenseKey))) = false)
        by (rewrite N1; exact S).
      assert (S2 : truthy (activationSuccess
                     (network w2 (activateRequestOf w2 domain licenseKey))) = false)
        by (rewrite N2, <- Suc; exact S).
      rewrite (activateLicense_refused domain licenseKey w1 s E1 S1).
      rewrite (activateLicense_refused domain licenseKey w2 s E2 S2).
      rewrite N1, N2, Tr, Suc. reflexivity.
Qed.

Lemma X9_witness :
  activateLicense "x.com" "K"
    (configuredWorld 1000
       (fun _ => FetchResponds true (BodyJson (JObj [("success", JBool true)]))))
    (cachedStore lifetimeInfo 500)
  = activateLicense "x.com" "K"
      (configuredWorld 2000
         (fun _ => FetchResponds false (BodyJson (JObj [("success", JBool true)]))))
      (cachedStore lifetimeInfo 500).
Proof.
  apply (X9_activate_ignores_status "x.com" "K" _ _ _ true false
           (BodyJson (JObj [("success", JBool true)])));
    reflexivity.
Defined.

(** X10.  What [activateLicense] returns and does is independent of the
    cache: from any two states it gives the same outcome and the same trace,
    and the state it leaves is the one it found or the empty one. *)
Theorem X10_activate_independent_of_cache
    (domain licenseKey : string) (w : World) (s1 s2 : Store) :
  fst (fst (activateLicense domain licenseKey w s1))
    = fst (fst (activateLicense domain licenseKey w s2)) /\
  snd (activateLicense domain licenseKey w s1)
    = snd (activateLicense domain licenseKey w s2) /\
  (snd (fst (activateLicense domain licenseKey w s1)) = s1 \/
   snd (fst (activateLicense domain licenseKey w s1)) = mkStore None 0).
Proof.
  set (o := network w (activateRequestOf w domain licenseKey)).
  destruct (activationError o) as [e | ] eqn:E.
  - rewrite (activateLicense_failure domain licenseKey w s1 e E).
    rewrite (activateLicense_failure domain licenseKey w s2 e E).
    simpl. auto.
  - destruct (truthy (activationSuccess o)) eqn:S.
    + rewrite (activateLicense_success domain licenseKey w s1 E S).
      rewrite (activateLicense_success domain licenseKey w s2 E S).
      simpl. auto.
    + rewrite (activateLicense_refused domain licenseKey w s1 E S).
      rewrite (activateLicense_refused domain licenseKey w s2 E S).
      simpl. auto.
Qed.

(** ** The feature gate *)

(** The decision of the gate on what [verifyLicense] returned. *)
Lemma gate_decision (feature : string) (w : World) (s s' : Store)
    (t : list Event) (l : LicenseInfo) :
  verifyLicense false w s = (Normal l, s', t) ->
  exists a,
    checkFeatureAccess feature w s = (Normal a, s', t) /\
    allowed a =
      truthy (valid l)
      && (strictEqStr (type l) "lifetime" || strictEqStr (type l) "enterprise"
          || strictEqStr (type l) "pro" || negb (includes proFeatures feature)) /\
    (allowed a = true -> reason a = JUndefined) /\
    (truthy (valid l) = false -> reason a = message l).
Proof.
  intros V. unfold checkFeatureAccess, bind, ret. rewrite V.
  destruct (truthy (valid l)), (strictEqStr (type l) "lifetime"),
    (strictEqStr (type l) "enterprise"), (strictEqStr (type l) "pro"),
    (includes proFeatures feature);
    simpl; rewrite ?app_nil_r; eexists;
    (split; [reflexivity | split; [reflexivity | split; intros H; simpl in *;
                                                 congruence]]).
Qed.

(** X11.  [checkFeatureAccess] does to the state and the outside exactly
    what the unforced [verifyLicense] it calls does, and it never allows a
    feature on a result that is not valid: an allowed answer carries no
    reason and means the result was valid, and an invalid result gives a
    denial whose reason is the result's message. *)
Theorem X11_gate_frame_and_safety (feature : string) (w : World) (s : Store) :
  exists l a s' t,
    verifyLicense false w s = (Normal l, s', t) /\
    checkFeatureAccess feature w s = (Normal a, s', t) /\
    (allowed a = true -> truthy (valid l) = true /\ reason a = JUndefined) /\
    (truthy (valid l) = false -> a = mkFeatureAccess false (message l)).
Proof.
  destruct (verifyLicense_total false w s) as (l & s' & t & V).
  destruct (gate_decision feature w s s' t l V) as (a & C & A & R & I).
  exists l, a, s', t. split; [exact V | split; [exact C | split]].
  - intros H. split; [ | now apply R].
    rewrite H in A. symmetry in A. apply andb_prop in A. tauto.
  - intros H. destruct a as [al re]. simpl in *. rewrite H in A. simpl in A.
    rewrite A, (I H). reflexivity.
Qed.

Lemma X11_witness :
  exists l a s' t,
    verifyLicense false (bareWorld 5000) initialStore = (Normal l, s', t) /\
    checkFeatureAccess "tickets" (bareWorld 5000) initialStore
      = (Normal a, s', t) /\
    a = mkFeatureAccess false (message l).
Proof.
  destruct (X11_gate_frame_and_safety "tickets" (bareWorld 5000) initialStore)
    as (l & a & s' & t & V & C & _ & I).
  exists l, a, s', t. split; [exact V | split; [exact C | ]].
  apply I. injection V as <- _ _. reflexivity.
Defined.

(** X12.  The gate is monotone in the tier, ordered unknown or standard,
    then pro, then enterprise and lifetime: a feature allowed on one valid
    result is allowed on any valid result of the same or a higher tier. *)
Theorem X12_gate_monotone
    (feature : string) (w1 w2 : World) (s1 s2 s1' s2' : Store)
    (t1 t2 : list Event) (l1 l2 : LicenseInfo) (a1 a2 : FeatureAccess) :
  verifyLicense false w1 s1 = (Normal l1, s1', t1) ->
  verifyLicense false w2 s2 = (Normal l2, s2', t2) ->
  checkFeatureAccess feature w1 s1 = (Normal a1, s1', t1) ->
  checkFeatureAccess feature w2 s2 = (Normal a2, s2', t2) ->
  truthy (valid l2) = true ->
  (tierRank (type l1) <= tierRank (type l2))%nat ->
  allowed a1 = true -> allowed a2 = true.
Proof.
  intros V1 V2 C1 C2 T2 R A1.
  destruct (gate_decision feature w1 s1 s1' t1 l1 V1) as (b1 & D1 & F1 & _).
  destruct (gate_decision feature w2 s2 s2' t2 l2 V2) as (b2 & D2 & F2 & _).
  rewrite C1 in D1. injection D1 as <-.
  rewrite C2 in D2. injection D2 as <-.
  rewrite F2, T2. rewrite F1 in A1. unfold tierRank in R.
  destruct (truthy (valid l1)), (strictEqStr (type l1) "lifetime"),
    (strictEqStr (type l1) "enterprise"), (strictEqStr (type l1) "pro"),
    (strictEqStr (type l2) "lifetime"), (strictEqStr (type l2) "enterprise"),
    (strictEqStr (type l2) "pro"), (includes proFeatures feature);
    simpl in *; try reflexivity; try discriminate; lia.
Qed.

Lemma X12_witness :
  allowed (mkFeatureAccess true JUndefined) = true.
Proof.
  apply (X12_gate_monotone "telegram"
           (configuredWorld 5000 (answers (tierBody (JStr "pro"))))
           (configuredWorld 5000 (answers (tierBody (JStr "enterprise"))))
           initialStore initialStore
           (cachedStore (tierInfo (JStr "pro")) 5000)
           (cachedStore (tierInfo (JStr "enterprise")) 5000)
           (verifyTrace (configuredWorld 5000 (answers (tierBody (JStr "pro"))))
              sampleLicenseConfig)
           (verifyTrace
              (configuredWorld 5000 (answers (tierBody (JStr "enterprise"))))
              sampleLicenseConfig)
           (tierInfo (JStr "pro")) (tierInfo (JStr "enterprise"))
           (mkFeatureAccess true JUndefined) (mkFeatureAccess true JUndefined));
    try reflexivity.
  vm_compute. repeat constructor.
Defined.

(** ** [getLicenseStatus] *)

(** X13.  [getLicenseStatus] reports configured exactly when
    [getLicenseConfig] finds a configuration, and then shows its domain (the
    licenseKey is not part of the answer), the result of the unforced
    [verifyLicense] as [info], which is also what the cache holds afterwards,
    and that result's own [valid]; when not configured it leaves the state
    alone and sends nothing. *)
Theorem X13_status_consistent (w : World) (s : Store) :
  exists st s' t,
    getLicenseStatus w s = (Normal st, s', t) /\
    readsConfig t = true /\
    (configured st = false ->
       readLicenseConfig w = None /\ st = mkLicenseStatus false (JBool false) None None
       /\ s' = s /\ fetches t = []) /\
    (configured st = true ->
       exists cfg l tv,
         readLicenseConfig w = Some cfg /\
         verifyLicense false w s = (Normal l, s', tv) /\
         st = mkLicenseStatus true (valid l) (Some l) (Some (domain cfg)) /\
         licenseCache s' = Some l /\
         fetches t = fetches tv).
Proof.
  destruct (readLicenseConfig w) as [cfg | ] eqn:C.
  - destruct (verifyLicense_cases false w s)
      as [(c & G & V) | [(G & C' & V) | (cfg' & G & C' & H)]].
    + eexists _, _, _.
      split; [eapply getLicenseStatus_configured; eauto | ].
      split; [rewrite app_nil_r; apply readsConfig_configTrace | ].
      split; [discriminate | ]. intros _. exists cfg, c, [].
      apply cacheHit_some in G. destruct G as (_ & K & _).
      repeat split; auto.
      rewrite fetches_app, fetches_configTrace. reflexivity.
    + rewrite C in C'. discriminate.
    + assert (cfg' = cfg) by congruence. subst cfg'.
      assert (exists l s' tv,
                verifyLicense false w s = (Normal l, s', tv) /\
                licenseCache s' = Some l) as (l & s' & tv & V & K).
      { destruct H as [(e & c & E & K & V) | [(e & E & K & V) | (E & V)]];
          eexists _, _, _; (split; [exact V | ]); simpl; auto. }
      eexists _, _, _.
      split; [eapply getLicenseStatus_configured; eauto | ].
      split.
      { unfold readsConfig. rewrite existsb_app.
        fold (readsConfig (configTrace w)).
        now rewrite readsConfig_configTrace. }
      split; [discriminate | ]. intros _. exists cfg, l, tv.
      repeat split; auto.
      rewrite fetches_app, fetches_configTrace. reflexivity.
  - eexists _, _, _.
    split; [apply getLicenseStatus_unconfigured; exact C | ].
    split; [apply readsConfig_configTrace | ].
    split; [ | discriminate].
    intros _. repeat split. apply fetches_configTrace.
Qed.

Lemma X13_witness :
  exists cfg l tv,
    readLicenseConfig (configuredWorld 5000 unreachable) = Some cfg /\
    verifyLicense false (configuredWorld 5000 unreachable)
      (cachedStore lifetimeInfo 4000)
      = (Normal l, cachedStore lifetimeInfo 4000, tv) /\
    mkLicenseStatus true (JBool true) (Some lifetimeInfo) (Some (JStr "x.com"))
      = mkLicenseStatus true (valid l) (Some l) (Some (domain cfg)) /\
    licenseCache (cachedStore lifetimeInfo 4000) = Some l /\
    fetches [EvExistsSync; EvReadFileSync] = fetches tv.
Proof.
  destruct (X13_status_consistent (configuredWorld 5000 unreachable)
              (cachedStore lifetimeInfo 4000))
    as (st & s' & t & G & _ & _ & H).
  injection G as <- <- <-. apply H. reflexivity.
Defined.

(** ** [getLicenseServer] *)

(** X14.  [getLicenseServer] never throws, sends nothing, leaves the state
    alone and never returns an empty (falsy) address: what it returns is the
    environment variable, or the [licenseServer] field of config.json, or
    the built-in address. *)
Theorem X14_server_never_empty (w : World) (s : Store) :
  exists v t,
    getLicenseServer w s = (Normal v, s, t) /\
    fetches t = [] /\
    truthy v = true /\
    (v = JStr "https://license.flixpilot.ovh" \/
     (exists e, envLicenseServer w = Some e /\ v = JStr e) \/
     (exists c, configFile w = Parsed c /\ v = optProp c "licenseServer")).
Proof.
  exists (licenseServerOf w), (serverTrace w).
  split; [apply getLicenseServer_run | ].
  split; [apply fetches_serverTrace | ].
  split; [apply licenseServerOf_truthy | ].
  assert (Cfg : envLicenseServer w = None \/ envLicenseServer w = Some "" ->
                licenseServerOf w = JStr "https://license.flixpilot.ovh" \/
                (exists c, configFile w = Parsed c /\
                           licenseServerOf w = optProp c "licenseServer")).
  { intros E. destruct (configFile w) as [ | e | e | c] eqn:F.
    - left. apply licenseServerOf_default; auto.
    - left. apply licenseServerOf_default; eauto.
    - left. apply licenseServerOf_default; eauto.
    - rewrite (licenseServerOf_config w c E F).
      destruct (truthy (optProp c "licenseServer")); [right; eauto | now left]. }
  destruct (envLicenseServer w) as [e | ] eqn:E.
  - destruct (String.eqb_spec e "") as [-> | N].
    + destruct Cfg as [D | D]; auto.
    + right. left. exists e. split; [reflexivity | ].
      now apply licenseServerOf_env.
  - destruct Cfg as [D | D]; auto.
Qed.

(** ** What the cache can hold *)











(** ** Responses that are not ok, and activation followed by verification *)

(** What [getLicenseConfig] finds and does depends on config.json only. *)
Lemma licenseConfig_ext (w1 w2 : World) :
  configFile w1 = configFile w2 ->
  readLicenseConfig w1 = readLicenseConfig w2 /\ configTrace w1 = configTrace w2.
Proof.
  destruct w1 as [t1 env1 file1 net1], w2 as [t2 env2 file2 net2]. simpl.
  intros <-. unfold readLicenseConfig, configTrace, getLicenseConfig.
  unfold_js.
  destruct file1 as [ | e | e | c]; simpl; try (split; reflexivity).
  destruct c as [ | | b | n | str | items | fields]; simpl;
    try (split; reflexivity).
  destruct (lookupField "license" fields) as [ | | b | n | str | items | lf];
    simpl; try (split; reflexivity).
  destruct (truthy (lookupField "domain" lf)); simpl; try (split; reflexivity).
  destruct (truthy (lookupField "licenseKey" lf)); split; reflexivity.
Qed.

(** X17.  [verifyLicense] never reads the body of a response that is not
    ok: at the same time, with the same environment and config.json, two
    such responses give the same result, state and trace whatever their
    bodies say, also when a body says [valid: true]. *)
Theorem X17_verify_ignores_body_when_not_ok
    (forceRefresh : bool) (w1 w2 : World) (s : Store) :
  now w1 = now w2 ->
  envLicenseServer w1 = envLicenseServer w2 ->
  configFile w1 = configFile w2 ->
  (forall req, exists body, network w1 req = FetchResponds false body) ->
  (forall req, exists body, network w2 req = FetchResponds false body) ->
  verifyLicense forceRefresh w1 s = verifyLicense forceRefresh w2 s.
Proof.
  intros T Env File N1 N2.
  destruct (licenseServer_ext w1 w2 Env File) as [Srv STr].
  destruct (licenseConfig_ext w1 w2 File) as [Cfg CTr].
  destruct (cacheHit forceRefresh (licenseCache s) (now w1) (lastVerifyTime s))
    as [c | ] eqn:G.
  { rewrite (verifyLicense_hit forceRefresh w1 s c G).
    rewrite T in G. now rewrite (verifyLicense_hit forceRefresh w2 s c G). }
  assert (G2 := G). rewrite T in G2.
  destruct (readLicenseConfig w1) as [cfg | ] eqn:C.
  2: { rewrite (verifyLicense_unconfigured forceRefresh w1 s G C).
       rewrite (verifyLicense_unconfigured forceRefresh w2 s G2 (eq_sym Cfg)).
       now rewrite T, CTr. }
  assert (C2 : readLicenseConfig w2 = Some cfg) by now rewrite <- Cfg.
  assert (E1 : exchangeError (network w1 (verifyRequestOf w1 cfg))
               = Some (mkError serverErrorMessage)).
  { destruct (N1 (verifyRequestOf w1 cfg)) as [b ->]. reflexivity. }
  assert (E2 : exchangeError (network w2 (verifyRequestOf w2 cfg))
               = Some (mkError serverErrorMessage)).
  { destruct (N2 (verifyRequestOf w2 cfg)) as [b ->]. reflexivity. }
  assert (Tr : verifyTrace w1 cfg = verifyTrace w2 cfg).
  { unfold verifyTrace, verifyRequestOf. now rewrite Srv, STr, CTr. }
  destruct (licenseCache s) as [c | ] eqn:K.
  - rewrite <- K in G, G2.
    rewrite (verifyLicense_failure_cached forceRefresh w1 s cfg _ c G C E1 K).
    rewrite (verifyLicense_failure_cached forceRefresh w2 s cfg _ c G2 C2 E2 K).
    now rewrite Tr.
  - clear G G2.
    assert (G : cacheHit forceRefresh (licenseCache s) (now w1)
                  (lastVerifyTime s) = None)
      by (rewrite K; apply cacheHit_empty).
    assert (G2 : cacheHit forceRefresh (licenseCache s) (now w2)
                   (lastVerifyTime s) = None)
      by (rewrite K; apply cacheHit_empty).
    rewrite (verifyLicense_failure_fresh forceRefresh w1 s cfg _ G C E1 K).
    rewrite (verifyLicense_failure_fresh forceRefresh w2 s cfg _ G2 C2 E2 K).
    now rewrite T, Tr.
Qed.

Lemma X17_witness :
  verifyLicense true
    (configuredWorld 5000
       (fun _ => FetchResponds false (BodyJson (tierBody (JStr "lifetime")))))
    initialStore
  = verifyLicense true
      (configuredWorld 5000
         (fun _ => FetchResponds false (JsonRejects (mkError "not JSON"))))
      initialStore.
Proof.
  apply (X17_verify_ignores_body_when_not_ok true
           (configuredWorld 5000
              (fun _ => FetchResponds false (BodyJson (tierBody (JStr "lifetime")))))
           (configuredWorld 5000
              (fun _ => FetchResponds false (JsonRejects (mkError "not JSON"))))
           initialStore).
  - reflexivity.
  - reflexivity.
  - reflexivity.
  - intros req. eexists. reflexivity.
  - intros req. eexists. reflexivity.
Defined.

(** X18.  After an [activateLicense] that reports success, the next
    [verifyLicense] of a configured deployment whose exchange succeeds
    returns the result built from that response, however recent the entry
    cached before the activation was; after one that does not report
    success, an unforced call less than 3600000 ms after [lastVerifyTime]
    still returns the entry cached before. *)
Theorem X18_verification_after_activation
    (domain licenseKey : string) (w w' : World) (s s1 : Store)
    (outcome : ActivationOutcome) (t : list Event) :
  activateLicense domain licenseKey w s = (Normal outcome, s1, t) ->
  (truthy (success outcome) = true ->
   forall forceRefresh cfg,
     readLicenseConfig w' = Some cfg ->
     exchangeError (network w' (verifyRequestOf w' cfg)) = None ->
     fst (fst (verifyLicense forceRefresh w' s1))
       = Normal (verifiedResult
                   (responseData (network w' (verifyRequestOf w' cfg))))) /\
  (truthy (success outcome) = false ->
   forall c,
     licenseCache s = Some c ->
     now w' - lastVerifyTime s < 3600000 ->
     verifyLicense false w' s1 = (Normal c, s, [])).
Proof.
  intros A.
  pose proof (activateLicense_cases domain licenseKey w s) as H.
  cbv zeta in H. destruct H as (outcome' & s' & A' & H).
  rewrite A in A'. injection A' as Eo Es _. subst outcome' s'.
  split.
  - intros T force cfg C E.
    assert (R : s1 = initialStore).
    { destruct H as [(e & _ & S & _) | [(_ & S & F & _) | (_ & _ & _ & R)]].
      - rewrite S in T. discriminate.
      - rewrite S, F in T. discriminate.
      - exact R. }
    subst s1.
    rewrite (verifyLicense_success force w' initialStore cfg
               (cacheHit_empty _ _ _) C E).
    reflexivity.
  - intros F c K L.
    assert (R : s1 = s).
    { destruct H as [(e & _ & _ & R) | [(_ & _ & _ & R) | (_ & S & T & _)]].
      - exact R.
      - exact R.
      - rewrite S, T in F. discriminate. }
    subst s1. apply verifyLicense_hit. rewrite K. now apply cacheHit_within.
Qed.

Lemma X18_witness :
  fst (fst (verifyLicense false
              (configuredWorld 1001 (answers (tierBody (JStr "pro"))))
              initialStore))
    = Normal (tierInfo (JStr "pro")) /\
  verifyLicense false (configuredWorld 1001 (answers (tierBody (JStr "pro"))))
    (cachedStore notConfiguredResult 900)
    = (Normal notConfiguredResult, cachedStore notConfiguredResult 900, []).
Proof.
  split.
  - pose proof (X18_verification_after_activation "x.com" "K"
                  (configuredWorld 1000 (answers (JObj [("success", JBool true)])))
                  (configuredWorld 1001 (answers (tierBody (JStr "pro"))))
                  (cachedStore notConfiguredResult 900) _ _ _ eq_refl)
      as (H & _).
    exact (H eq_refl false sampleLicenseConfig eq_refl eq_refl).
  - pose proof (X18_verification_after_activation "x.com" "K"
                  (configuredWorld 1000 unreachable)
                  (configuredWorld 1001 (answers (tierBody (JStr "pro"))))
                  (cachedStore notConfiguredResult 900) _ _ _ eq_refl)
      as (_ & H).
    apply (H eq_refl notConfiguredResult eq_refl). simpl. lia.
Defined.
